(** * AzureAccountTreeItemBase: the Azure account node of the tree view

    A shallow embedding of
    [src/ui/src/treeDataProvider/AzureAccountTreeItemBase.ts] and the
    properties of its child loading, subscription reconciliation,
    subscription prompt step and refresh listeners.

    The class is asynchronous TypeScript.  Every [async] method is embedded
    as a computation in a state-and-exception monad [M]: the state holds the
    fields of [this], the action context objects the host passes by
    reference, the state of the collaborators (the account provider, the
    host, the subscription factory) and a trace of the calls made to them.
    A promise is embedded by the way it settles. *)

From stdpp Require Import base option list strings gmap.

Set Default Proof Using "Type".

(** ** JavaScript values, errors and promises *)

(** The values passed as command arguments. *)
Inductive JSValue :=
  | VString (s : string)
  | VBool (b : bool).

#[global] Instance JSValue_eq_dec : EqDecision JSValue.
Proof. solve_decision. Defined.

(** Error values.  [UserCancelledError] is the class of [../errors]; every
    other error value is an [Error] with its message. *)
Inductive JSError :=
  | UserCancelledError
  | Error (message : string).

#[global] Instance JSError_eq_dec : EqDecision JSError.
Proof. solve_decision. Defined.

(** How a promise settles. *)
Inductive Settled (A : Type) :=
  | Resolved (value : A)
  | Rejected (reason : JSError).
Arguments Resolved {A} value.
Arguments Rejected {A} reason.

Definition is_resolved {A} (s : Settled A) : Prop :=
  match s with Resolved _ => True | Rejected _ => False end.

#[global] Instance is_resolved_dec {A} (s : Settled A) : Decision (is_resolved s).
Proof. destruct s; simpl; apply _. Defined.

(** A promise: its outcome and the position [settledAt] at which it settles
    in the order of the event loop.  The position is a logical clock, and
    it is the one the [async] function awaiting the promise settles at: 0
    for what settles it in the turn of the call (a value found, a throw),
    later for what settles it in a later turn. *)
Record Promise (A : Type) := mkPromise {
  settledAt : nat;
  settled : Settled A
}.
Arguments mkPromise {A} settledAt settled.
Arguments settledAt {A} p.
Arguments settled {A} p.

Module PromiseNS.

Definition resolve {A} (a : A) : Promise A := mkPromise 0 (Resolved a).
Definition reject {A} (e : JSError) : Promise A := mkPromise 0 (Rejected e).

(** The rejection that happens first among [ps]: the one with the
    smallest position, the earlier element of the list on equal
    positions (reactions queued in the same turn run in queue order). *)
Fixpoint firstRejection {A} (ps : list (Promise A)) : option (nat * JSError) :=
  match ps with
  | [] => None
  | p :: ps' =>
      match settled p, firstRejection ps' with
      | Resolved _, r => r
      | Rejected e, None => Some (settledAt p, e)
      | Rejected e, Some (t', e') =>
          if bool_decide (settledAt p ≤ t') then Some (settledAt p, e) else Some (t', e')
      end
  end.

(** The values of [ps], in the order of [ps], when all are resolved. *)
Fixpoint values {A} (ps : list (Promise A)) : option (list A) :=
  match ps with
  | [] => Some []
  | p :: ps' =>
      match settled p, values ps' with
      | Resolved a, Some l => Some (a :: l)
      | _, _ => None
      end
  end.

Definition lastSettled {A} (ps : list (Promise A)) : nat :=
  foldr (λ p t, settledAt p `max` t) 0 ps.

(** [Promise.all]: rejects with the first rejection as soon as it
    happens; otherwise resolves, when the last promise has, to the values
    in the order of the input. *)
Definition all {A} (ps : list (Promise A)) : Promise (list A) :=
  match firstRejection ps with
  | Some (t, e) => mkPromise t (Rejected e)
  | None => mkPromise (lastSettled ps) (Resolved (default [] (values ps)))
  end.

End PromiseNS.

(** ** The data of [azure-account.api] and of [index.d.ts] *)

Inductive AzureLoginStatus := Initializing | LoggingIn | LoggedIn | LoggedOut.

#[global] Instance AzureLoginStatus_eq_dec : EqDecision AzureLoginStatus.
Proof. solve_decision. Defined.

(** The string a status is in JavaScript. *)
Definition statusString (s : AzureLoginStatus) : string :=
  match s with
  | Initializing => "Initializing"
  | LoggingIn => "LoggingIn"
  | LoggedIn => "LoggedIn"
  | LoggedOut => "LoggedOut"
  end.

(** Opaque objects are known by their reference only. *)
Definition Credentials : Type := nat.
Definition Environment : Type := nat.
Definition AzureAccount : Type := nat.

Record AzureSession := {
  session_credentials : Credentials;
  session_tenantId : string;
  session_userId : string;
  session_environment : Environment
}.

(** [SubscriptionModels.Subscription]: every property is optional. *)
Record Subscription := {
  subscription_id : option string;
  subscription_displayName : option string;
  subscription_subscriptionId : option string
}.

Record AzureResourceFilter := {
  session : AzureSession;
  subscription : Subscription
}.

Record ISubscriptionContext := {
  credentials : Credentials;
  subscriptionDisplayName : string;
  subscriptionId : string;
  subscriptionPath : string;
  tenantId : string;
  userId : string;
  environment : Environment
}.

#[global] Instance ISubscriptionContext_eq_dec : EqDecision ISubscriptionContext.
Proof. solve_decision. Defined.

(** A subscription node.  [objectRef] is the identity of the JavaScript
    object: two nodes are the same instance when they are equal, reference
    included.  [treeItem_id] is its [id] property and [root] its [root]. *)
Record SubscriptionTreeItemBase := {
  objectRef : nat;
  treeItem_id : option string;
  root : ISubscriptionContext
}.

#[global] Instance SubscriptionTreeItemBase_eq_dec : EqDecision SubscriptionTreeItemBase.
Proof. solve_decision. Defined.

(** [SubscriptionTreeItemBase.contextValue]. *)
Definition SubscriptionTreeItemBase_contextValue : string :=
  "azureextensionui.azureSubscription".

Record IconPath := {
  light : list string;
  dark : list string
}.

(** A [GenericTreeItem], by the options its constructor is given (an option
    left out of the literal is [None]) and the [commandArgs] assigned to it
    afterwards.  The icon paths are kept as the segments handed to
    [path.join]. *)
Record GenericTreeItem := {
  label : string;
  commandId : option string;
  contextValue : string;
  generic_id : option string;
  iconPath : option IconPath;
  includeInTreeItemPicker : option bool;
  commandArgs : option (list JSValue)
}.

Inductive AzExtTreeItem :=
  | Generic (ti : GenericTreeItem)
  | SubscriptionItem (ti : SubscriptionTreeItemBase).

Record MessageItem := { title : string }.

#[global] Instance MessageItem_eq_dec : EqDecision MessageItem.
Proof. solve_decision. Defined.

Record Extension := {
  isActive : bool;
  exports : AzureAccount
}.

(** The action context a caller passes, a
    [Partial<ISubscriptionWizardContext> & IActionContext]: the telemetry
    properties and the optional subscription properties. *)
Record IActionContext := {
  telemetry_properties : gmap string string;
  context_credentials : option Credentials;
  context_subscriptionDisplayName : option string;
  context_subscriptionId : option string;
  context_subscriptionPath : option string;
  context_tenantId : option string;
  context_userId : option string;
  context_environment : option Environment
}.

(** [context.telemetry.properties[key] = value]. *)
Definition setTelemetryProperty (key value : string) (c : IActionContext) : IActionContext :=
  {| telemetry_properties := <[key := value]> (telemetry_properties c);
     context_credentials := context_credentials c;
     context_subscriptionDisplayName := context_subscriptionDisplayName c;
     context_subscriptionId := context_subscriptionId c;
     context_subscriptionPath := context_subscriptionPath c;
     context_tenantId := context_tenantId c;
     context_userId := context_userId c;
     context_environment := context_environment c |}.

(** [Object.assign(context, root)]: the seven properties of [root] are
    written over those of [context]; the others are kept. *)
Definition Object_assign (c : IActionContext) (r : ISubscriptionContext) : IActionContext :=
  {| telemetry_properties := telemetry_properties c;
     context_credentials := Some (credentials r);
     context_subscriptionDisplayName := Some (subscriptionDisplayName r);
     context_subscriptionId := Some (subscriptionId r);
     context_subscriptionPath := Some (subscriptionPath r);
     context_tenantId := Some (tenantId r);
     context_userId := Some (userId r);
     context_environment := Some (environment r) |}.

(** Truthiness of a [string | undefined]: [undefined] and the empty string
    are falsy. *)
Definition truthy (v : option string) : bool :=
  match v with
  | Some s => negb (String.eqb s "")
  | None => false
  end.

(** ** The constants of the module *)

Definition signInCommandId : string := "azure-account.login".
Definition createAccountCommandId : string := "azure-account.createAccount".
Definition selectSubscriptionsCommandId : string := "azure-account.selectSubscriptions".
Definition azureAccountExtensionId : string := "ms-vscode.azure-account".
Definition extensionOpenCommand : string := "extension.open".

(** ** The collaborators

    What the class calls and does not implement: the abstract method
    [createSubscriptionTreeItem] of the concrete subclass, the account
    provider, the extension host, the user interface, [localize] and the
    module's [__filename].  [World] is their state; a call returns the
    promise it gives back and the state it leaves.  A call that returns a
    plain value gives a promise resolved to it, a call that throws a
    promise rejected at position 0. *)
Class Host (World : Type) := {
  localize : string → string → string;
  __filename : string;
  (** the message of the error [utils/nonNull] throws for a property name *)
  nullValueMessage : string → string;
  createSubscriptionTreeItem :
    ISubscriptionContext → World → Promise SubscriptionTreeItemBase * World;
  account_status : AzureAccount → World → AzureLoginStatus;
  account_filters : AzureAccount → World → list AzureResourceFilter;
  account_waitForFilters : AzureAccount → World → Promise bool * World;
  extensions_getExtension : string → World → option Extension;
  extension_activate : Extension → World → Promise unit * World;
  commands_executeCommand : string → list JSValue → World → Promise unit * World;
  ui_showWarningMessage : string → list MessageItem → World → Promise MessageItem * World;
  treeDataProvider_showTreeItemPicker :
    string → World → Promise SubscriptionTreeItemBase * World
}.

(** The two event emitters of the account, and the two closures
    [loadAzureAccount] registers on them. *)
Inductive Emitter := onFiltersChanged | onStatusChanged.

Inductive Callback :=
  | filtersChangedCallback   (* async () => await this.refresh() *)
  | statusChangedCallback.   (* async (status) => { if (status !== 'LoggedIn') await this.refresh(); } *)

#[global] Instance Emitter_eq_dec : EqDecision Emitter.
Proof. solve_decision. Defined.

#[global] Instance Callback_eq_dec : EqDecision Callback.
Proof. solve_decision. Defined.

(** A registration of a listener; it is also the [Disposable] that
    registering returns. *)
Record Disposable := {
  emitter : Emitter;
  account : AzureAccount;
  listener : Callback
}.

Inductive AccountEvent :=
  | FiltersChanged
  | StatusChanged (status : AzureLoginStatus).

(** The calls made to the collaborators, in the order they are made. *)
Inductive HostCall :=
  | CallCreateSubscriptionTreeItem (root : ISubscriptionContext)
      (result : Promise SubscriptionTreeItemBase)
  | CallWaitForFilters (azureAccount : AzureAccount)
  | CallActivate (extension : Extension)
  | CallExecuteCommand (command : string) (args : list JSValue)
  | CallShowWarningMessage (message : string) (items : list MessageItem)
  | CallShowTreeItemPicker (expectedContextValue : string) (context : nat)
  | CallRefresh.

(** The fields of the class. *)
Record AzureAccountTreeItemBase := {
  disposables : list Disposable;
  _azureAccountTask : Promise (option AzureAccount);
  _subscriptionTreeItems : option (list SubscriptionTreeItemBase)
}.

Definition emptyContext : IActionContext :=
  {| telemetry_properties := ∅;
     context_credentials := None;
     context_subscriptionDisplayName := None;
     context_subscriptionId := None;
     context_subscriptionPath := None;
     context_tenantId := None;
     context_userId := None;
     context_environment := None |}.

(** The prompt step [getSubscriptionPromptStep] returns: an instance of the
    local class [SubscriptionPromptStep], whose closure holds [me] (the one
    tree item of the state) and the reference of the caller's [context]. *)
Record SubscriptionPromptStep := {
  step_context : nat
}.

#[global] Instance Disposable_eq_dec : EqDecision Disposable.
Proof. solve_decision. Defined.

(** Disposing of a registration takes it, once, out of the listeners of
    its emitter. *)
Fixpoint removeListener (d : Disposable) (ls : list Disposable) : list Disposable :=
  match ls with
  | [] => []
  | l :: ls' => if bool_decide (l = d) then ls' else l :: removeListener d ls'
  end.

Section Model.

Context {World : Type} `{!Host World}.

(** The state the methods run in: [this], the action context objects by
    reference, the listeners registered on the account's emitters, the
    collaborators' state and the trace of the calls made to them. *)
Record St := mkSt {
  this : AzureAccountTreeItemBase;
  contexts : nat → IActionContext;
  listeners : list Disposable;
  world : World;
  trace : list HostCall
}.

Definition with_this (f : AzureAccountTreeItemBase → AzureAccountTreeItemBase) (st : St) : St :=
  mkSt (f (this st)) (contexts st) (listeners st) (world st) (trace st).

Definition with_context (context : nat) (f : IActionContext → IActionContext) (st : St) : St :=
  mkSt (this st)
    (λ r, if bool_decide (r = context) then f (contexts st r) else contexts st r)
    (listeners st) (world st) (trace st).

(** An [async] computation: it runs from a state to the way it settles
    and the state it leaves.  A rejection keeps the effects done before
    it. *)
Definition M (A : Type) : Type := St → Settled A * St.

Definition ret {A} (a : A) : M A := λ st, (Resolved a, st).
Definition throw {A} (e : JSError) : M A := λ st, (Rejected e, st).
Definition bind {A B} (m : M A) (k : A → M B) : M B :=
  λ st, match m st with
        | (Resolved a, st') => k a st'
        | (Rejected e, st') => (Rejected e, st')
        end.

Notation "'let*' x ':=' m 'in' k" := (bind m (λ x, k))
  (at level 10, x name, m at level 100, k at level 200, only parsing).
Notation "m ';;;' k" := (bind m (λ _, k))
  (at level 100, k at level 200, right associativity, only parsing).

Definition gets {A} (f : St → A) : M A := λ st, (Resolved (f st), st).
Definition modify (f : St → St) : M unit := λ st, (Resolved tt, f st).

(** [await p] *)
Definition await {A} (p : Promise A) : M A := λ st, (settled p, st).

(** A call to a collaborator: it runs on the collaborators' state and is
    recorded in the trace; the promise it returns is handed back. *)
Definition callHost {A} (f : World → Promise A * World) (entry : Promise A → HostCall)
  : M (Promise A) :=
  λ st, let '(p, w) := f (world st) in
        (Resolved p,
         mkSt (this st) (contexts st) (listeners st) w (trace st ++ [entry p])).

(** [Array.prototype.map] with an effectful callback: the callback runs
    on each element in turn. *)
Fixpoint mapM {A B} (f : A → M B) (l : list A) : M (list B) :=
  match l with
  | [] => ret []
  | a :: l' => let* b := f a in let* bs := mapM f l' in ret (b :: bs)
  end.

(** [nonNullValue] and [nonNullProp] of [utils/nonNull], which is not
    among the sources: by their names and their use here they hand back
    a value that is neither null nor undefined and throw otherwise. *)
Definition nonNullValue {A} (value : option A) (propertyOrName : string) : Settled A :=
  match value with
  | Some v => Resolved v
  | None => Rejected (Error (nullValueMessage propertyOrName))
  end.

Definition nonNullProp {A} (value : option A) (name : string) : Settled A :=
  nonNullValue value name.

(** [this.refresh()], of the base class: asks the tree to reload this
    node. *)
Definition refresh : M unit :=
  modify (λ st, mkSt (this st) (contexts st) (listeners st) (world st)
                  (trace st ++ [CallRefresh])).

(** [azureAccount.onFiltersChanged(l)] and [azureAccount.onStatusChanged(l)]. *)
Definition subscribe (e : Emitter) (azureAccount : AzureAccount) (l : Callback) : M Disposable :=
  λ st, let d := {| emitter := e; account := azureAccount; listener := l |} in
        (Resolved d,
         mkSt (this st) (contexts st) (listeners st ++ [d]) (world st) (trace st)).

(** [this.disposables.push(d)] *)
Definition pushDisposable (d : Disposable) : M unit :=
  modify (with_this (λ t,
    {| disposables := disposables t ++ [d];
       _azureAccountTask := _azureAccountTask t;
       _subscriptionTreeItems := _subscriptionTreeItems t |})).

(** [this._subscriptionTreeItems = items] *)
Definition setSubscriptionTreeItems (items : list SubscriptionTreeItemBase) : M unit :=
  modify (with_this (λ t,
    {| disposables := disposables t;
       _azureAccountTask := _azureAccountTask t;
       _subscriptionTreeItems := Some items |})).

(** The body of a registered closure, run on the argument the emitter
    passes ([None] is [undefined]). *)
Definition runCallback (l : Callback) (arg : option AzureLoginStatus) : M unit :=
  match l with
  | filtersChangedCallback => refresh
  | statusChangedCallback =>
      if bool_decide (arg ≠ Some LoggedIn) then refresh else ret tt
  end.

(** The event an emitter fires reaches the listeners registered on it. *)
Definition deliver (azureAccount : AzureAccount) (ev : AccountEvent) (d : Disposable) : M unit :=
  if bool_decide (account d = azureAccount) then
    match emitter d, ev with
    | onFiltersChanged, FiltersChanged => runCallback (listener d) None
    | onStatusChanged, StatusChanged status => runCallback (listener d) (Some status)
    | _, _ => ret tt
    end
  else ret tt.

Definition fire (azureAccount : AzureAccount) (ev : AccountEvent) : M unit :=
  let* ls := gets listeners in
  let* _ := mapM (deliver azureAccount ev) ls in
  ret tt.

(** *** [loadAzureAccount] (lines 151-176) *)
Definition loadAzureAccount (azureAccount : option AzureAccount) : M (option AzureAccount) :=
  let* azureAccount :=
    match azureAccount with
    | Some a => ret (Some a)
    | None =>
        let* extension := gets (λ st, extensions_getExtension azureAccountExtensionId (world st)) in
        match extension with
        | Some extension =>
            (if isActive extension then ret tt
             else let* p := callHost (extension_activate extension) (λ _, CallActivate extension) in
                  await p) ;;;
            ret (Some (exports extension))
        | None => ret None
        end
    end in
  match azureAccount with
  | Some a =>
      let* d1 := subscribe onFiltersChanged a filtersChangedCallback in
      pushDisposable d1 ;;;
      let* d2 := subscribe onStatusChanged a statusChangedCallback in
      pushDisposable d2 ;;;
      let* p := callHost
                  (commands_executeCommand "setContext" [VString "isAzureAccountInstalled"; VBool true])
                  (λ _, CallExecuteCommand "setContext" [VString "isAzureAccountInstalled"; VBool true]) in
      await p ;;;
      ret (Some a)
  | None => ret None
  end.

(** *** The constructor (lines 41-44)

    The field initialisers run, then [loadAzureAccount] is started and
    its promise stored.  [_azureAccountTask] is unassigned while
    [loadAzureAccount] runs, which never reads it.  [heap] holds the
    context objects of the host and [w] is the collaborators' state when
    the node is built. *)
Definition constructor (testAccount : option AzureAccount)
    (heap : nat → IActionContext) (w : World) : St :=
  let this0 := {| disposables := [];
                  _azureAccountTask := PromiseNS.resolve None;
                  _subscriptionTreeItems := None |} in
  let '(r, st) := loadAzureAccount testAccount (mkSt this0 heap [] w []) in
  with_this (λ t, {| disposables := disposables t;
                     _azureAccountTask := mkPromise 0 r;
                     _subscriptionTreeItems := _subscriptionTreeItems t |}) st.

Definition hasMoreChildrenImpl : bool := false.

(** [context.telemetry.properties[key] = value] on the context object
    [context] refers to. *)
Definition setTelemetry (context : nat) (key value : string) : M unit :=
  modify (with_context context (setTelemetryProperty key value)).

(** The object literal of lines 106-114: the resolved context of a
    filter.  Its properties are evaluated in order, so the first missing
    one throws. *)
Definition subscriptionContext (filter : AzureResourceFilter) : Settled ISubscriptionContext :=
  match nonNullProp (subscription_displayName (subscription filter)) "displayName" with
  | Rejected e => Rejected e
  | Resolved displayName =>
      match nonNullProp (subscription_subscriptionId (subscription filter)) "subscriptionId" with
      | Rejected e => Rejected e
      | Resolved subscriptionId' =>
          match nonNullProp (subscription_id (subscription filter)) "id" with
          | Rejected e => Rejected e
          | Resolved id' =>
              Resolved
                {| credentials := session_credentials (session filter);
                   subscriptionDisplayName := displayName;
                   subscriptionId := subscriptionId';
                   subscriptionPath := id';
                   tenantId := session_tenantId (session filter);
                   userId := session_userId (session filter);
                   environment := session_environment (session filter) |}
          end
      end
  end.

(** [existingSubscriptions.find(ti => ti.id === filter.subscription.id)] *)
Definition findExisting (existingSubscriptions : list SubscriptionTreeItemBase)
    (filter : AzureResourceFilter) : option SubscriptionTreeItemBase :=
  find (λ ti, bool_decide (treeItem_id ti = subscription_id (subscription filter)))
    existingSubscriptions.

(** The [async] arrow function mapped over the filters (lines 98-116).
    Calling it runs its body up to the call of the factory and returns
    the promise of its result; a throw in the body rejects that promise. *)
Definition reconcileFilter (existingSubscriptions : list SubscriptionTreeItemBase)
    (filter : AzureResourceFilter) : M (Promise SubscriptionTreeItemBase) :=
  match findExisting existingSubscriptions filter with
  | Some existingTreeItem => ret (PromiseNS.resolve existingTreeItem)
  | None =>
      match subscriptionContext filter with
      | Rejected e => ret (PromiseNS.reject e)
      | Resolved root' =>
          callHost (createSubscriptionTreeItem root') (CallCreateSubscriptionTreeItem root')
      end
  end.

Definition loadingIconPath : IconPath :=
  {| light := [__filename; ".."; ".."; ".."; ".."; "resources"; "light"; "Loading.svg"];
     dark := [__filename; ".."; ".."; ".."; ".."; "resources"; "dark"; "Loading.svg"] |}.

Definition signInLabel : string := localize "signInLabel" "Sign in to Azure...".
Definition createAccountLabel : string :=
  localize "createAccountLabel" "Create a Free Azure Account...".
Definition selectSubscriptionsLabel : string :=
  localize "noSubscriptions" "Select Subscriptions...".

(** *** [loadMoreChildrenImpl] (lines 58-119) *)
Definition loadMoreChildrenImpl (_clearCache : bool) (context : nat) : M (list AzExtTreeItem) :=
  let* task := gets (λ st, _azureAccountTask (this st)) in
  let* azureAccount := await task in
  match azureAccount with
  | None =>
      setTelemetry context "accountStatus" "notInstalled" ;;;
      let label' := localize "installAzureAccount" "Install Azure Account Extension..." in
      ret [Generic
             {| label := label';
                commandId := Some extensionOpenCommand;
                contextValue := "installAzureAccount";
                generic_id := None;
                iconPath := None;
                includeInTreeItemPicker := Some true;
                commandArgs := Some [VString azureAccountExtensionId] |}]
  | Some azureAccount =>
      let* status := gets (λ st, account_status azureAccount (world st)) in
      setTelemetry context "accountStatus" (statusString status) ;;;
      let* cached := gets (λ st, _subscriptionTreeItems (this st)) in
      let existingSubscriptions := match cached with Some l => l | None => [] end in
      setSubscriptionTreeItems [] ;;;
      let contextValue' := "azureCommand" in
      if bool_decide (status = Initializing ∨ status = LoggingIn) then
        ret [Generic
               {| label := if bool_decide (status = Initializing)
                           then localize "loadingTreeItem" "Loading..."
                           else localize "signingIn" "Waiting for Azure sign-in...";
                  commandId := Some signInCommandId;
                  contextValue := contextValue';
                  generic_id := Some signInCommandId;
                  iconPath := Some loadingIconPath;
                  includeInTreeItemPicker := None;
                  commandArgs := None |}]
      else if bool_decide (status = LoggedOut) then
        ret [Generic
               {| label := signInLabel;
                  commandId := Some signInCommandId;
                  contextValue := contextValue';
                  generic_id := Some signInCommandId;
                  iconPath := None;
                  includeInTreeItemPicker := Some true;
                  commandArgs := None |};
             Generic
               {| label := createAccountLabel;
                  commandId := Some createAccountCommandId;
                  contextValue := contextValue';
                  generic_id := Some createAccountCommandId;
                  iconPath := None;
                  includeInTreeItemPicker := Some true;
                  commandArgs := None |}]
      else
        let* ready := callHost (account_waitForFilters azureAccount)
                        (λ _, CallWaitForFilters azureAccount) in
        let* _ := await ready in
        let* filters := gets (λ st, account_filters azureAccount (world st)) in
        if bool_decide (length filters = 0) then
          ret [Generic
                 {| label := selectSubscriptionsLabel;
                    commandId := Some selectSubscriptionsCommandId;
                    contextValue := contextValue';
                    generic_id := Some selectSubscriptionsCommandId;
                    iconPath := None;
                    includeInTreeItemPicker := Some true;
                    commandArgs := None |}]
        else
          let* promises := mapM (reconcileFilter existingSubscriptions) filters in
          let* items := await (PromiseNS.all promises) in
          setSubscriptionTreeItems items ;;;
          let* items' := gets (λ st, _subscriptionTreeItems (this st)) in
          ret (SubscriptionItem <$> default [] items')
  end.

(** Modelled from the spec: [getCachedChildren] of the base class
    [AzExtParentTreeItem], which is not among the sources.  The resolver
    "ensures the subscription list is materialized (forces a
    reconciliation pass if not yet done)": where it is called here it
    runs the node's child loading once.  The flag is the one the base
    class hands to [loadMoreChildrenImpl], which ignores it. *)
Definition getCachedChildren (context : nat) : M (list AzExtTreeItem) :=
  loadMoreChildrenImpl true context.

(** The [message] and the [viewInMarketplace] item of lines 182-183. *)
Definition requiresAzureAccountMessage : string :=
  localize "requiresAzureAccount"
    "This functionality requires installing the Azure Account extension.".
Definition viewInMarketplaceItem : MessageItem :=
  {| title := localize "viewInMarketplace" "View in Marketplace" |}.

(** *** [ensureSubscriptionTreeItems] (lines 178-196) *)
Definition ensureSubscriptionTreeItems (context : nat) : M (list SubscriptionTreeItemBase) :=
  let* task := gets (λ st, _azureAccountTask (this st)) in
  let* azureAccount := await task in
  match azureAccount with
  | None =>
      setTelemetry context "cancelStep" "requiresAzureAccount" ;;;
      let message := requiresAzureAccountMessage in
      let viewInMarketplace := viewInMarketplaceItem in
      let* answer := callHost (ui_showWarningMessage message [viewInMarketplace])
                       (λ _, CallShowWarningMessage message [viewInMarketplace]) in
      let* picked := await answer in
      (if bool_decide (picked = viewInMarketplace) then
         let* opened := callHost
                          (commands_executeCommand extensionOpenCommand [VString azureAccountExtensionId])
                          (λ _, CallExecuteCommand extensionOpenCommand [VString azureAccountExtensionId]) in
         await opened
       else ret tt) ;;;
      throw UserCancelledError
  | Some _ =>
      let* cached := gets (λ st, _subscriptionTreeItems (this st)) in
      (match cached with
       | None => let* _ := getCachedChildren context in ret tt
       | Some _ => ret tt
       end) ;;;
      let* cached := gets (λ st, _subscriptionTreeItems (this st)) in
      await (mkPromise 0 (nonNullValue cached "subscriptionTreeItems"))
  end.

(** *** [getSubscriptionPromptStep] (lines 121-138) *)
Definition getSubscriptionPromptStep (context : nat) : M (option SubscriptionPromptStep) :=
  let* subscriptions := ensureSubscriptionTreeItems context in
  if bool_decide (length subscriptions = 1) then
    match subscriptions !! 0 with
    | Some first =>
        modify (with_context context (λ c, Object_assign c (root first))) ;;;
        ret None
    | None => throw (Error "TypeError")
    end
  else
    ret (Some {| step_context := context |}).

(** The methods of the local class [SubscriptionPromptStep]; both read
    the context object the closure holds, as it is when they are called. *)
Definition shouldPrompt (step : SubscriptionPromptStep) (st : St) : bool :=
  negb (truthy (context_subscriptionId (contexts st (step_context step)))).

Definition prompt (step : SubscriptionPromptStep) : M unit :=
  let* picked := callHost
                   (treeDataProvider_showTreeItemPicker SubscriptionTreeItemBase_contextValue)
                   (λ _, CallShowTreeItemPicker SubscriptionTreeItemBase_contextValue
                           (step_context step)) in
  let* ti := await picked in
  modify (with_context (step_context step) (λ c, Object_assign c (root ti))).

(** *** [dispose] (lines 50-52)

    [Disposable.from(...this.disposables).dispose()], when the node is
    disposed of: each disposable of the array is disposed of in turn; the
    array itself is left as it is. *)
Definition dispose : M unit :=
  modify (λ st, mkSt (this st) (contexts st)
                  (foldl (λ ls d, removeListener d ls) (listeners st) (disposables (this st)))
                  (world st) (trace st)).

End Model.

Arguments St World : clear implicits.
Arguments M World A : clear implicits.

(** ** A concrete host

    A small deployment on which the model runs: one account, a factory
    that numbers the nodes it builds and fails on the subscription paths
    listed in [failing], and a user who gives a fixed answer to the
    warning. *)
Module Fixture.

Record TestWorld := {
  installed : option Extension;
  status : AzureLoginStatus;
  filters : list AzureResourceFilter;
  nextRef : nat;
  failing : list string;
  answer : Settled MessageItem
}.

Definition build (root' : ISubscriptionContext) (w : TestWorld)
  : Promise SubscriptionTreeItemBase * TestWorld :=
  if bool_decide (subscriptionPath root' ∈ failing w) then
    (mkPromise 1 (Rejected (Error "createSubscriptionTreeItem failed")), w)
  else
    (mkPromise 1 (Resolved {| objectRef := nextRef w;
                              treeItem_id := Some (subscriptionPath root');
                              root := root' |}),
     {| installed := installed w; status := status w; filters := filters w;
        nextRef := S (nextRef w); failing := failing w; answer := answer w |}).

#[global] Instance testHost : Host TestWorld := {|
  localize := λ _ text, text;
  __filename := "AzureAccountTreeItemBase.js";
  nullValueMessage := λ name, name;
  createSubscriptionTreeItem := build;
  account_status := λ _ w, status w;
  account_filters := λ _ w, filters w;
  account_waitForFilters := λ _ w, (mkPromise 1 (Resolved true), w);
  extensions_getExtension := λ id w,
    if bool_decide (id = azureAccountExtensionId) then installed w else None;
  extension_activate := λ _ w, (mkPromise 1 (Resolved tt), w);
  commands_executeCommand := λ _ _ w, (mkPromise 1 (Resolved tt), w);
  ui_showWarningMessage := λ _ _ w, (mkPromise 1 (answer w), w);
  treeDataProvider_showTreeItemPicker := λ _ w,
    (mkPromise 1 (Rejected UserCancelledError), w)
|}.

Definition testSession : AzureSession :=
  {| session_credentials := 7;
     session_tenantId := "tenant";
     session_userId := "user";
     session_environment := 9 |}.

Definition filterFor (path : string) : AzureResourceFilter :=
  {| session := testSession;
     subscription := {| subscription_id := Some path;
                        subscription_displayName := Some "Pay-As-You-Go";
                        subscription_subscriptionId := Some "guid" |} |}.

Definition rootFor (path : string) : ISubscriptionContext :=
  {| credentials := 7;
     subscriptionDisplayName := "Pay-As-You-Go";
     subscriptionId := "guid";
     subscriptionPath := path;
     tenantId := "tenant";
     userId := "user";
     environment := 9 |}.

Definition nodeFor (ref : nat) (path : string) : SubscriptionTreeItemBase :=
  {| objectRef := ref; treeItem_id := Some path; root := rootFor path |}.

Definition nodeA : SubscriptionTreeItemBase := nodeFor 1 "/sub/1".
Definition nodeB : SubscriptionTreeItemBase := nodeFor 2 "/sub/2".
Definition nodeC : SubscriptionTreeItemBase := nodeFor 3 "/sub/3".

Definition theAccount : AzureAccount := 0.

Definition worldWith (s : AzureLoginStatus) (fs : list AzureResourceFilter)
    (bad : list string) : TestWorld :=
  {| installed := Some {| isActive := true; exports := theAccount |};
     status := s; filters := fs; nextRef := 3; failing := bad;
     answer := Rejected UserCancelledError |}.

Definition worldWithout (a : Settled MessageItem) : TestWorld :=
  {| installed := None; status := LoggedOut; filters := []; nextRef := 3;
     failing := []; answer := a |}.

(** The node as the constructor leaves it in a world, with the cache
    then set to [cache]. *)
Definition nodeIn (w : TestWorld) (cache : option (list SubscriptionTreeItemBase)) : St TestWorld :=
  with_this (λ t, {| disposables := disposables t;
                     _azureAccountTask := _azureAccountTask t;
                     _subscriptionTreeItems := cache |})
    (constructor None (λ _, emptyContext) w).

(** previous = [A(/sub/1), B(/sub/2)], new filters = [/sub/2, /sub/3] *)
Definition scenario : St TestWorld :=
  nodeIn (worldWith LoggedIn [filterFor "/sub/2"; filterFor "/sub/3"] [])
    (Some [nodeA; nodeB]).

(** the same, with a factory that fails on /sub/3 *)
Definition failingScenario : St TestWorld :=
  nodeIn (worldWith LoggedIn [filterFor "/sub/2"; filterFor "/sub/3"] ["/sub/3"])
    (Some [nodeA; nodeB]).

Definition viewInMarketplace : MessageItem := {| title := "View in Marketplace" |}.

(** the account still initializing, logged out, and logged in with no
    filter; nothing loaded yet *)
Definition initializing : St TestWorld := nodeIn (worldWith Initializing [] []) None.
Definition loggedOut : St TestWorld := nodeIn (worldWith LoggedOut [] []) None.
Definition noFilters : St TestWorld := nodeIn (worldWith LoggedIn [] []) None.

(** one subscription loaded *)
Definition oneSubscription : St TestWorld :=
  nodeIn (worldWith LoggedIn [filterFor "/sub/2"] []) (Some [nodeB]).

(** the extension not installed, and a user who picks the item offered *)
Definition notInstalled : St TestWorld :=
  nodeIn (worldWithout (Resolved viewInMarketplace)) None.

(** after the failed pass of [failingScenario], the factory works again *)
Definition retry : St TestWorld :=
  let failed := (loadMoreChildrenImpl false 0 failingScenario).2 in
  mkSt (this failed) (contexts failed) (listeners failed)
    (worldWith LoggedIn [filterFor "/sub/2"; filterFor "/sub/3"] [])
    (trace failed).

End Fixture.

(** ** A host that can fail

    A second deployment, whose collaborators settle as its world says:
    the activation of the extension, the setting of the host's context,
    the wait for the filters and the tree item picker may each reject. *)
Module Faulty.

Record World := {
  installed : option Extension;
  activation : Settled unit;
  contextSet : Settled unit;
  status : AzureLoginStatus;
  filtersReady : Settled bool;
  filters : list AzureResourceFilter;
  picked : Settled SubscriptionTreeItemBase
}.

#[global] Instance faultyHost : Host World | 100 := {|
  localize := λ _ text, text;
  __filename := "AzureAccountTreeItemBase.js";
  nullValueMessage := λ name, name;
  createSubscriptionTreeItem := λ root' w,
    (mkPromise 1 (Resolved {| objectRef := 10;
                              treeItem_id := Some (subscriptionPath root');
                              root := root' |}), w);
  account_status := λ _ w, status w;
  account_filters := λ _ w, filters w;
  account_waitForFilters := λ _ w, (mkPromise 1 (filtersReady w), w);
  extensions_getExtension := λ id w,
    if bool_decide (id = azureAccountExtensionId) then installed w else None;
  extension_activate := λ _ w, (mkPromise 1 (activation w), w);
  commands_executeCommand := λ command _ w,
    (mkPromise 1 (if bool_decide (command = "setContext") then contextSet w else Resolved tt), w);
  ui_showWarningMessage := λ _ _ w, (mkPromise 1 (Rejected UserCancelledError), w);
  treeDataProvider_showTreeItemPicker := λ _ w, (mkPromise 1 (picked w), w)
|}.

Definition dormant : Extension := {| isActive := false; exports := 5 |}.

Definition worldWith (a c : Settled unit) (s : AzureLoginStatus) (r : Settled bool)
    (fs : list AzureResourceFilter) : World :=
  {| installed := Some dormant; activation := a; contextSet := c; status := s;
     filtersReady := r; filters := fs;
     picked := Resolved (Fixture.nodeFor 2 "/sub/2") |}.

(** a filter with no display name *)
Definition namelessFilter : AzureResourceFilter :=
  {| session := Fixture.testSession;
     subscription := {| subscription_id := Some "/sub/9";
                        subscription_displayName := None;
                        subscription_subscriptionId := Some "guid" |} |}.

(** the node, built in a world where everything works *)
Definition healthy (s : AzureLoginStatus) (fs : list AzureResourceFilter) : St World :=
  constructor None (λ _, emptyContext) (worldWith (Resolved tt) (Resolved tt) s (Resolved true) fs).

(** the node, built while the extension fails to activate *)
Definition unactivated : St World :=
  constructor None (λ _, emptyContext)
    (worldWith (Rejected (Error "activation failed")) (Resolved tt) LoggedIn (Resolved true) []).

(** the node, logged in, when the wait for the filters fails *)
Definition waitFails : St World :=
  constructor None (λ _, emptyContext)
    (worldWith (Resolved tt) (Resolved tt) LoggedIn (Rejected (Error "no filters")) []).

(** the node with A and B in its cache *)
Definition cached (fs : list AzureResourceFilter) : St World :=
  with_this (λ t, {| disposables := disposables t;
                     _azureAccountTask := _azureAccountTask t;
                     _subscriptionTreeItems := Some [Fixture.nodeA; Fixture.nodeB] |})
    (healthy LoggedIn fs).

End Faulty.

(** ** What the properties are stated with *)

Section Predicates.

Context {World : Type} `{!Host World}.

(** How the callback of [loadMoreChildrenImpl] treats a filter, given the
    factory calls [calls] of the pass: the promise it returns is already
    resolved to the node [find] gave, already rejected by a missing
    property, or the promise of a factory call of the pass. *)
Definition dispatched (previous : list SubscriptionTreeItemBase) (calls : list HostCall)
    (filter : AzureResourceFilter) (p : Promise SubscriptionTreeItemBase) : Prop :=
  match findExisting previous filter with
  | Some existing => p = PromiseNS.resolve existing
  | None =>
      match subscriptionContext filter with
      | Rejected e => p = PromiseNS.reject e
      | Resolved root' =>
          CallCreateSubscriptionTreeItem root' p ∈ calls ∧
          ∃ w, (createSubscriptionTreeItem root' w).1 = p
      end
  end.

(** A node newly created for a filter: [createSubscriptionTreeItem] was
    called on the filter's resolved context among the calls [calls], and
    the promise it returned resolved to the node. *)
Definition created (calls : list HostCall)
    (filter : AzureResourceFilter) (node : SubscriptionTreeItemBase) : Prop :=
  ∃ root' p w, subscriptionContext filter = Resolved root' ∧
               CallCreateSubscriptionTreeItem root' p ∈ calls ∧
               (createSubscriptionTreeItem root' w).1 = p ∧
               settled p = Resolved node.

(** A call of the factory, with the promise it returned, one of
    [promises]. *)
Definition factoryCall (promises : list (Promise SubscriptionTreeItemBase))
    (c : HostCall) : Prop :=
  ∃ root' p w, c = CallCreateSubscriptionTreeItem root' p ∧
               (createSubscriptionTreeItem root' w).1 = p ∧
               p ∈ promises.

(** A call that sets the host's [isAzureAccountInstalled] context. *)
Definition setsInstalledFlag (c : HostCall) : Prop :=
  ∃ args, c = CallExecuteCommand "setContext" (VString "isAzureAccountInstalled" :: args).

(** The call that sets the host's [isAzureAccountInstalled] context
    (line 172). *)
Definition setInstalledFlag : HostCall :=
  CallExecuteCommand "setContext" [VString "isAzureAccountInstalled"; VBool true].

(** The two registrations [loadAzureAccount] makes on an account. *)
Definition registrations (azureAccount : AzureAccount) : list Disposable :=
  [ {| emitter := onFiltersChanged; account := azureAccount;
       listener := filtersChangedCallback |};
    {| emitter := onStatusChanged; account := azureAccount;
       listener := statusChangedCallback |} ].

(** The contexts the factory is to be called on in a pass: those of the
    filters that match no node of the previous list and miss no property,
    in the order of the filters. *)
Definition pendingRoots (previous : list SubscriptionTreeItemBase)
    (filters : list AzureResourceFilter) : list ISubscriptionContext :=
  omap (λ filter,
          match findExisting previous filter with
          | Some _ => None
          | None =>
              match subscriptionContext filter with
              | Resolved root' => Some root'
              | Rejected _ => None
              end
          end) filters.

(** The contexts of the factory calls among [calls], in their order. *)
Definition createdRoots (calls : list HostCall) : list ISubscriptionContext :=
  omap (λ c, match c with
             | CallCreateSubscriptionTreeItem root' _ => Some root'
             | _ => None
             end) calls.

(** The state in which the callbacks of a pass run: the status recorded,
    the cache emptied, the wait for the filters done. *)
Definition passState (context : nat) (azureAccount : AzureAccount) (w1 : World)
    (st : St World) : St World :=
  mkSt {| disposables := disposables (this st);
          _azureAccountTask := _azureAccountTask (this st);
          _subscriptionTreeItems := Some [] |}
    (λ r, if bool_decide (r = context)
          then setTelemetryProperty "accountStatus" "LoggedIn" (contexts st r)
          else contexts st r)
    (listeners st) w1 (trace st ++ [CallWaitForFilters azureAccount]).

(** A node with a command the host can invoke on it. *)
Definition actionable (ti : AzExtTreeItem) : Prop :=
  match ti with
  | Generic g => is_Some (commandId g)
  | SubscriptionItem _ => False
  end.

End Predicates.

(** ** Promises *)

Section PromiseFacts.

Context {A : Type}.
Implicit Types (ps : list (Promise A)) (p : Promise A).

Lemma firstRejection_None ps :
  PromiseNS.firstRejection ps = None ↔ Forall (λ p, is_resolved (settled p)) ps.
Proof.
  induction ps as [|p ps IH]; simpl.
  - split; [constructor | done].
  - destruct (settled p) as [a|e] eqn:Hp.
    + rewrite IH. split.
      * intros H. constructor; [by rewrite Hp | done].
      * by inversion 1.
    + split.
      * destruct (PromiseNS.firstRejection ps) as [[t' e']|]; [|done].
        by case_bool_decide.
      * inversion 1 as [|? ? Hr]. by rewrite Hp in Hr.
Qed.

Lemma firstRejection_Some ps t e :
  PromiseNS.firstRejection ps = Some (t, e) →
  ∃ p, p ∈ ps ∧ settled p = Rejected e ∧ settledAt p = t ∧
       ∀ q, q ∈ ps → ¬ is_resolved (settled q) → t ≤ settledAt q.
Proof.
  revert t e. induction ps as [|p ps IH]; simpl; [done|].
  intros t e. destruct (settled p) as [a|e0] eqn:Hp.
  - intros (q & Hq & Hs & Ht & Hmin)%IH. exists q. split_and!; try done.
    + by apply list_elem_of_further.
    + intros r [->|Hr]%elem_of_cons Hn; [by rewrite Hp in Hn | by apply Hmin].
  - destruct (PromiseNS.firstRejection ps) as [[t' e']|] eqn:Hf.
    + destruct (IH _ _ eq_refl) as (q & Hq & Hs & Ht & Hmin).
      case_bool_decide as Hle; intros [= <- <-].
      * exists p. split_and!; try done; [apply list_elem_of_here|].
        intros r [->|Hr]%elem_of_cons Hn; [done|].
        specialize (Hmin r Hr Hn). lia.
      * exists q. split_and!; try done; [by apply list_elem_of_further|].
        intros r [->|Hr]%elem_of_cons Hn; [lia | by apply Hmin].
    + intros [= <- <-]. exists p. split_and!; try done; [apply list_elem_of_here|].
      intros r [->|Hr]%elem_of_cons Hn; [done|].
      apply firstRejection_None in Hf.
      rewrite Forall_forall in Hf. by specialize (Hf r Hr).
Qed.

Lemma values_resolved ps :
  Forall (λ p, is_resolved (settled p)) ps →
  ∃ vs, PromiseNS.values ps = Some vs ∧ Forall2 (λ p v, settled p = Resolved v) ps vs.
Proof.
  induction 1 as [|p ps Hp _ (vs & Hvs & Hall)]; simpl.
  - exists []. by split; [|constructor].
  - destruct (settled p) as [a|] eqn:Ha; [|done].
    rewrite Hvs. exists (a :: vs). split; [done|]. by constructor.
Qed.

(** [Promise.all] resolves exactly when every promise does, to their
    values in the order of the promises. *)
Lemma all_Resolved ps vs :
  settled (PromiseNS.all ps) = Resolved vs ↔
  Forall2 (λ p v, settled p = Resolved v) ps vs.
Proof.
  unfold PromiseNS.all. split.
  - destruct (PromiseNS.firstRejection ps) as [[t e]|] eqn:Hf; simpl; [done|].
    apply firstRejection_None, values_resolved in Hf as (vs' & -> & Hall).
    simpl. by intros [= <-].
  - intros Hall.
    assert (Forall (λ p, is_resolved (settled p)) ps) as Hres.
    { clear -Hall. induction Hall as [|p v ps vs Hp _ IH]; constructor; [|done].
      by rewrite Hp. }
    pose proof Hres as ->%firstRejection_None. simpl.
    apply values_resolved in Hres as (vs' & -> & Hall'). simpl. f_equal.
    clear -Hall Hall'. revert vs' Hall'.
    induction Hall as [|p v ps vs Hp _ IH]; intros vs'; inversion 1 as [|? v' ? vs'' Hp']; subst.
    + done.
    + rewrite Hp in Hp'. injection Hp' as ->. f_equal. by apply IH.
Qed.

(** [Promise.all] rejects exactly when some promise does, with the
    reason of the one that rejects first. *)
Lemma all_Rejected ps e :
  settled (PromiseNS.all ps) = Rejected e →
  ∃ p, p ∈ ps ∧ settled p = Rejected e ∧
       ∀ q, q ∈ ps → ¬ is_resolved (settled q) → settledAt p ≤ settledAt q.
Proof.
  unfold PromiseNS.all.
  destruct (PromiseNS.firstRejection ps) as [[t e']|] eqn:Hf; simpl; [|done].
  intros [= ->]. apply firstRejection_Some in Hf as (p & Hp & Hs & <- & Hmin).
  by exists p.
Qed.

Lemma all_rejects ps p e :
  p ∈ ps → settled p = Rejected e → ∃ e', settled (PromiseNS.all ps) = Rejected e'.
Proof.
  intros Hp Hs. destruct (settled (PromiseNS.all ps)) as [vs|e'] eqn:Hall; [|by eexists].
  apply all_Resolved in Hall.
  apply list_elem_of_lookup in Hp as [i Hi].
  destruct (Forall2_lookup_l _ _ _ _ _ Hall Hi) as (v & _ & Hv). congruence.
Qed.

End PromiseFacts.

(** ** The callback and the pass *)

Section ModelFacts.

Context {World : Type} `{!Host World}.
Implicit Types (st : St World) (previous : list SubscriptionTreeItemBase)
  (filters : list AzureResourceFilter) (calls : list HostCall).

(** What [find] gives is the first node of the list with the filter's
    fully-qualified id. *)
Lemma findExisting_Some previous filter existing :
  findExisting previous filter = Some existing →
  existing ∈ previous ∧ treeItem_id existing = subscription_id (subscription filter).
Proof.
  unfold findExisting. induction previous as [|ti previous IH]; simpl; [done|].
  case_bool_decide as Hid.
  - intros [= <-]. split; [apply list_elem_of_here | done].
  - intros [Hin ?]%IH. split; [by apply list_elem_of_further | done].
Qed.

Lemma findExisting_None previous filter :
  findExisting previous filter = None ↔
  ∀ ti, ti ∈ previous → treeItem_id ti ≠ subscription_id (subscription filter).
Proof.
  unfold findExisting. induction previous as [|ti previous IH]; simpl.
  - split; [|done]. by intros _ ti ?%not_elem_of_nil.
  - case_bool_decide as Hid.
    + split; [done|]. intros Hall. destruct (Hall ti); [apply list_elem_of_here | done].
    + rewrite IH. split.
      * intros Hall ti' [->|?]%elem_of_cons; [done | by apply Hall].
      * intros Hall ti' ?. by apply Hall, list_elem_of_further.
Qed.

Lemma dispatched_weaken previous calls calls' filter p :
  dispatched previous calls filter p →
  (∀ c, c ∈ calls → c ∈ calls') →
  dispatched previous calls' filter p.
Proof.
  unfold dispatched. intros Hd Hsub.
  destruct (findExisting previous filter); [done|].
  destruct (subscriptionContext filter); [|done].
  destruct Hd as [Hin Hw]. split; [by apply Hsub | done].
Qed.

(** One call of the callback: it never throws, it changes the
    collaborators' state and the trace only, and only by a factory
    call. *)
Lemma reconcileFilter_spec previous filter st :
  ∃ p calls w,
    reconcileFilter previous filter st =
      (Resolved p, mkSt (this st) (contexts st) (listeners st) w (trace st ++ calls)) ∧
    dispatched previous calls filter p ∧
    (∀ c, c ∈ calls → factoryCall [p] c).
Proof.
  unfold reconcileFilter, dispatched.
  destruct (findExisting previous filter) as [existing|].
  { exists (PromiseNS.resolve existing), [], (world st).
    rewrite app_nil_r. destruct st. split_and!; [done | done |].
    by intros c ?%not_elem_of_nil. }
  destruct (subscriptionContext filter) as [root'|e].
  - unfold callHost.
    destruct (createSubscriptionTreeItem root' (world st)) as [p w] eqn:Hcall.
    exists p, [CallCreateSubscriptionTreeItem root' p], w.
    assert ((createSubscriptionTreeItem root' (world st)).1 = p) as Hp by by rewrite Hcall.
    split_and!; [done | apply list_elem_of_here | by exists (world st) |].
    intros c ->%list_elem_of_singleton. exists root', p, (world st).
    split_and!; [done | done | apply list_elem_of_here].
  - exists (PromiseNS.reject e), [], (world st).
    rewrite app_nil_r. destruct st. split_and!; [done | done |].
    by intros c ?%not_elem_of_nil.
Qed.

(** The callbacks of one pass, mapped over the filters in their order:
    one promise for each filter, and no factory call but theirs. *)
Lemma mapM_reconcileFilter previous filters st :
  ∃ promises calls w,
    mapM (reconcileFilter previous) filters st =
      (Resolved promises, mkSt (this st) (contexts st) (listeners st) w (trace st ++ calls)) ∧
    Forall2 (dispatched previous calls) filters promises ∧
    (∀ c, c ∈ calls → factoryCall promises c).
Proof.
  revert st. induction filters as [|filter filters IH]; intros st; simpl.
  { exists [], [], (world st). rewrite app_nil_r. destruct st.
    split_and!; [done | constructor |]. by intros c ?%not_elem_of_nil. }
  destruct (reconcileFilter_spec previous filter st) as (p & calls1 & w1 & Hrun & Hd & Hc1).
  unfold bind at 1. rewrite Hrun.
  destruct (IH (mkSt (this st) (contexts st) (listeners st) w1 (trace st ++ calls1)))
    as (promises & calls2 & w2 & Hrest & Hall & Hc2).
  unfold bind at 1. rewrite Hrest. simpl.
  exists (p :: promises), (calls1 ++ calls2), w2.
  rewrite <- app_assoc. split_and!; [done | |].
  - constructor.
    + eapply dispatched_weaken; [done|]. intros c ?. apply elem_of_app. by left.
    + eapply Forall2_impl; [done|]. intros f q Hq.
      eapply dispatched_weaken; [done|]. intros c ?. apply elem_of_app. by right.
  - intros c [Hin|Hin]%elem_of_app.
    + destruct (Hc1 c Hin) as (root' & q & w & -> & Hw & Hq%list_elem_of_singleton).
      exists root', q, w. split_and!; [done | done | rewrite Hq; apply list_elem_of_here].
    + destruct (Hc2 c Hin) as (root' & q & w & -> & Hw & Hq).
      exists root', q, w. split_and!; [done | done | by apply list_elem_of_further].
Qed.

(** The reconciliation branch of [loadMoreChildrenImpl]: the account is
    there and logged in, the wait for the filters is over and there are
    filters.  The pass settles as [Promise.all] of the callbacks'
    promises does; the cache holds the nodes when it resolves and is
    left empty when it rejects. *)
Lemma loadMoreChildrenImpl_pass cc context st azureAccount ready w1 b :
  settled (_azureAccountTask (this st)) = Resolved (Some azureAccount) →
  account_status azureAccount (world st) = LoggedIn →
  account_waitForFilters azureAccount (world st) = (ready, w1) →
  settled ready = Resolved b →
  account_filters azureAccount w1 ≠ [] →
  ∃ promises calls st',
    Forall2 (dispatched (default [] (_subscriptionTreeItems (this st))) calls)
      (account_filters azureAccount w1) promises ∧
    (∀ c, c ∈ calls → factoryCall promises c) ∧
    loadMoreChildrenImpl cc context st =
      (match settled (PromiseNS.all promises) with
       | Resolved items => Resolved (SubscriptionItem <$> items)
       | Rejected e => Rejected e
       end, st') ∧
    _subscriptionTreeItems (this st') =
      Some (match settled (PromiseNS.all promises) with
            | Resolved items => items
            | Rejected _ => []
            end) ∧
    _azureAccountTask (this st') = _azureAccountTask (this st) ∧
    trace st' = trace st ++ CallWaitForFilters azureAccount :: calls.
Proof.
  intros Htask Hstatus Hwait Hready Hne.
  unfold loadMoreChildrenImpl, bind, gets, await, setTelemetry, setSubscriptionTreeItems,
    modify, callHost. simpl.
  rewrite Htask, Hstatus. simpl. rewrite Hwait, Hready. simpl.
  rewrite bool_decide_eq_false_2 by (by destruct (account_filters azureAccount w1)).
  match goal with |- context [mapM (reconcileFilter ?prev) ?fs ?s] =>
    destruct (mapM_reconcileFilter prev fs s) as (promises & calls & w2 & Hrun & Hall & Hcalls)
  end.
  rewrite Hrun. simpl in *.
  assert (default [] (_subscriptionTreeItems (this st)) =
          match _subscriptionTreeItems (this st) with Some l => l | None => [] end) as Hprev
    by by destruct (_subscriptionTreeItems (this st)).
  rewrite Hprev.
  exists promises, calls.
  destruct (settled (PromiseNS.all promises)) as [items|e] eqn:Hsettled;
    eexists; (split_and!; [done | done | reflexivity | reflexivity | reflexivity |]);
    simpl; by rewrite <- app_assoc.
Qed.

End ModelFacts.

(** ** Reconciliation *)

Section Reconciliation.

Context {World : Type} `{!Host World}.
Implicit Types (st : St World) (previous : list SubscriptionTreeItemBase)
  (filters : list AzureResourceFilter) (calls : list HostCall).

(** When every promise of the callbacks resolved, the values are, filter
    by filter, the node found or the node created. *)
Lemma dispatched_resolved previous calls filters promises items :
  Forall2 (dispatched previous calls) filters promises →
  Forall2 (λ p v, settled p = Resolved v) promises items →
  length items = length filters ∧
  ∀ i filter, filters !! i = Some filter →
    ∃ node, items !! i = Some node ∧
      match findExisting previous filter with
      | Some existing => node = existing
      | None => created calls filter node
      end.
Proof.
  intros Hd Hv. split.
  { by rewrite <- (Forall2_length _ _ _ Hv), <- (Forall2_length _ _ _ Hd). }
  intros i filter Hi.
  destruct (Forall2_lookup_l _ _ _ _ _ Hd Hi) as (p & Hp & Hdisp).
  destruct (Forall2_lookup_l _ _ _ _ _ Hv Hp) as (node & Hnode & Hres).
  exists node. split; [done|]. unfold dispatched in Hdisp.
  destruct (findExisting previous filter) as [existing|].
  - subst p. simpl in Hres. by injection Hres.
  - destruct (subscriptionContext filter) as [root'|e] eqn:Hctx.
    + destruct Hdisp as [Hin [w Hw]]. by exists root', p, w.
    + subst p. discriminate.
Qed.

(** C1. A reconciliation pass (the account logged in, the wait for the
    filters over, at least one filter) returns, when no property a new
    node needs is missing and no factory call of the pass rejects; and
    the list it returns has one node for each filter, in the order of
    the filters: for a filter whose fully-qualified id is the id of a
    node of the previous list, that very node (the first such one, the
    one [find] gives), and for a filter that matches none, the node a
    call of [createSubscriptionTreeItem] made in the pass on the filter's
    resolved context resolved to. *)
Theorem reconciliation_reuses_or_creates cc context st azureAccount ready w1 b
    (Htask : settled (_azureAccountTask (this st)) = Resolved (Some azureAccount))
    (Hstatus : account_status azureAccount (world st) = LoggedIn)
    (Hwait : account_waitForFilters azureAccount (world st) = (ready, w1))
    (Hready : settled ready = Resolved b)
    (Hfilters : account_filters azureAccount w1 ≠ []) :
  let previous := default [] (_subscriptionTreeItems (this st)) in
  let filters := account_filters azureAccount w1 in
  ((∀ filter, filter ∈ filters → findExisting previous filter = None →
      is_resolved (subscriptionContext filter)) →
   (∀ root' p,
      CallCreateSubscriptionTreeItem root' p ∈
        drop (length (trace st)) (trace (loadMoreChildrenImpl cc context st).2) →
      is_resolved (settled p)) →
   is_resolved (loadMoreChildrenImpl cc context st).1) ∧
  (∀ out st', loadMoreChildrenImpl cc context st = (Resolved out, st') →
     ∃ nodes calls,
       out = SubscriptionItem <$> nodes ∧
       _subscriptionTreeItems (this st') = Some nodes ∧
       trace st' = trace st ++ CallWaitForFilters azureAccount :: calls ∧
       length nodes = length filters ∧
       ∀ i filter, filters !! i = Some filter →
         ∃ node, nodes !! i = Some node ∧
           (∀ existing, findExisting previous filter = Some existing → node = existing) ∧
           ((∃ ti, ti ∈ previous ∧
                   treeItem_id ti = subscription_id (subscription filter)) →
            node ∈ previous ∧
            treeItem_id node = subscription_id (subscription filter)) ∧
           ((∀ ti, ti ∈ previous →
                   treeItem_id ti ≠ subscription_id (subscription filter)) →
            created calls filter node)).
Proof.
  intros previous filters.
  destruct (loadMoreChildrenImpl_pass cc context st azureAccount ready w1 b
              Htask Hstatus Hwait Hready Hfilters)
    as (promises & calls & st1 & Hd & Hcalls & Hrun & Hcache & Htask' & Htrace).
  fold previous filters in Hd. split.
  - intros Hprops Hfactory. rewrite Hrun in Hfactory |- *. simpl in *.
    rewrite Htrace, drop_app_length in Hfactory.
    assert (Forall (λ p, is_resolved (settled p)) promises) as Hres.
    { apply Forall_forall. intros p [i Hp]%list_elem_of_lookup.
      destruct (Forall2_lookup_r _ _ _ _ _ Hd Hp) as (filter & Hf & Hdisp).
      unfold dispatched in Hdisp.
      destruct (findExisting previous filter) as [existing|] eqn:Hfind; [by subst p|].
      specialize (Hprops filter (list_elem_of_lookup_2 _ _ _ Hf) Hfind).
      destruct (subscriptionContext filter) as [root'|e]; [|done].
      destruct Hdisp as [Hin _]. apply (Hfactory root').
      by apply list_elem_of_further. }
    apply firstRejection_None in Hres. unfold PromiseNS.all. by rewrite Hres.
  - intros out st' Hout. rewrite Hrun in Hout.
    destruct (settled (PromiseNS.all promises)) as [items|e] eqn:Hall; [|done].
    injection Hout as <- <-. apply all_Resolved in Hall.
    destruct (dispatched_resolved _ _ _ _ _ Hd Hall) as [Hlen Hnodes].
    exists items, calls. split_and!; try done.
    intros i filter Hi. destruct (Hnodes i filter Hi) as (node & Hnode & Hcase).
    exists node. split; [done|].
    destruct (findExisting previous filter) as [existing|] eqn:Hfind.
    + subst node. apply findExisting_Some in Hfind as Hex. split_and!.
      * by intros ? [= <-].
      * done.
      * intros Hno. destruct Hex as [Hin Hid]. by destruct (Hno existing Hin).
    + split_and!; [done | | done].
      intros (ti & Hin & Hid). rewrite findExisting_None in Hfind.
      by destruct (Hfind ti Hin).
Qed.

End Reconciliation.

(** The scenario of the specification: previous = [A(/sub/1), B(/sub/2)],
    new filters = [/sub/2, /sub/3]; the pass returns [B; C], B reused and
    C made by the factory. *)
Lemma reconciliation_reuses_or_creates_witness :
  is_resolved (loadMoreChildrenImpl false 0 Fixture.scenario).1 ∧
  ∃ nodes calls,
    [SubscriptionItem Fixture.nodeB; SubscriptionItem Fixture.nodeC] = SubscriptionItem <$> nodes ∧
    length nodes = 2 ∧
    (∃ node, nodes !! 0 = Some node ∧ node ∈ [Fixture.nodeA; Fixture.nodeB]) ∧
    (∃ node, nodes !! 1 = Some node ∧ created calls (Fixture.filterFor "/sub/3") node).
Proof.
  destruct (reconciliation_reuses_or_creates false 0 Fixture.scenario Fixture.theAccount
              (mkPromise 1 (Resolved true)) (world Fixture.scenario) true
              ltac:(vm_compute; reflexivity) ltac:(vm_compute; reflexivity)
              ltac:(vm_compute; reflexivity) ltac:(vm_compute; reflexivity)
              ltac:(vm_compute; discriminate)) as [Htotal Hspec].
  split.
  - apply Htotal.
    + intros filter Hin _.
      apply elem_of_cons in Hin as [->|Hin]; [exact I|].
      apply list_elem_of_singleton in Hin as ->. exact I.
    + intros root' p Hin. vm_compute in Hin.
      apply elem_of_cons in Hin as [[=]|Hin].
      apply list_elem_of_singleton in Hin. injection Hin as _ ->. exact I.
  - assert (loadMoreChildrenImpl false 0 Fixture.scenario =
            (Resolved [SubscriptionItem Fixture.nodeB; SubscriptionItem Fixture.nodeC],
             (loadMoreChildrenImpl false 0 Fixture.scenario).2)) as Hrun
      by (vm_compute; reflexivity).
    destruct (Hspec _ _ Hrun) as (nodes & calls & Hout & _ & _ & Hlen & Hnodes).
    exists nodes, calls. split_and!; [done | done | |].
    + destruct (Hnodes 0 (Fixture.filterFor "/sub/2") eq_refl) as (node & Hnode & _ & Hreuse & _).
      exists node. split; [done|]. apply Hreuse.
      exists Fixture.nodeB. split; [|done].
      apply list_elem_of_further, list_elem_of_here.
    + destruct (Hnodes 1 (Fixture.filterFor "/sub/3") eq_refl) as (node & Hnode & _ & _ & Hnew).
      exists node. split; [done|]. apply Hnew.
      intros ti Hin.
      apply elem_of_cons in Hin as [->|Hin]; [discriminate|].
      apply list_elem_of_singleton in Hin as ->. discriminate.
Defined.

Section FactoryFailure.

Context {World : Type} `{!Host World}.
Implicit Types (st : St World).

(** C2. When a call of [createSubscriptionTreeItem] made in a
    reconciliation pass rejects, the whole pass fails: it rejects, with
    the reason of a callback of the pass that failed (the rejection of a
    factory call or a missing property; the reason of that call when it
    is the only failure), it returns no list, and it stores none: the
    cache is left empty. *)
Theorem factory_failure_fails_the_pass cc context st azureAccount ready w1 b root' p e
    (Htask : settled (_azureAccountTask (this st)) = Resolved (Some azureAccount))
    (Hstatus : account_status azureAccount (world st) = LoggedIn)
    (Hwait : account_waitForFilters azureAccount (world st) = (ready, w1))
    (Hready : settled ready = Resolved b)
    (Hfilters : account_filters azureAccount w1 ≠ [])
    (Hcall : CallCreateSubscriptionTreeItem root' p ∈
               drop (length (trace st)) (trace (loadMoreChildrenImpl cc context st).2))
    (Hfail : settled p = Rejected e) :
  let previous := default [] (_subscriptionTreeItems (this st)) in
  let filters := account_filters azureAccount w1 in
  let calls := drop (length (trace st)) (trace (loadMoreChildrenImpl cc context st).2) in
  ∃ e',
    (loadMoreChildrenImpl cc context st).1 = Rejected e' ∧
    _subscriptionTreeItems (this (loadMoreChildrenImpl cc context st).2) = Some [] ∧
    ((∃ root'' q, CallCreateSubscriptionTreeItem root'' q ∈ calls ∧ settled q = Rejected e') ∨
     (∃ filter, filter ∈ filters ∧ findExisting previous filter = None ∧
                subscriptionContext filter = Rejected e')) ∧
    ((∀ root'' q, CallCreateSubscriptionTreeItem root'' q ∈ calls →
                  ¬ is_resolved (settled q) → q = p) →
     (∀ filter, filter ∈ filters → findExisting previous filter = None →
                is_resolved (subscriptionContext filter)) →
     e' = e).
Proof.
  intros previous filters calls. subst calls.
  destruct (loadMoreChildrenImpl_pass cc context st azureAccount ready w1 b
              Htask Hstatus Hwait Hready Hfilters)
    as (promises & calls & st1 & Hd & Hcalls & Hrun & Hcache & Htask' & Htrace).
  fold previous filters in Hd. rewrite Hrun in Hcall |- *. simpl in *.
  rewrite Htrace, drop_app_length in Hcall |- *.
  apply elem_of_cons in Hcall as [[=]|Hcall].
  destruct (Hcalls _ Hcall) as (r & q & w & [= <- <-] & _ & Hp).
  destruct (all_rejects promises p e Hp Hfail) as [e' Hall].
  rewrite Hall in Hcache |- *. exists e'.
  split; [done|]. split; [done|]. split.
  - apply all_Rejected in Hall as (q & [i Hq]%list_elem_of_lookup & Hqe & _).
    destruct (Forall2_lookup_r _ _ _ _ _ Hd Hq) as (filter & Hf & Hdisp).
    unfold dispatched in Hdisp.
    destruct (findExisting previous filter) as [existing|] eqn:Hfind.
    { subst q. discriminate. }
    destruct (subscriptionContext filter) as [root''|e0] eqn:Hctx.
    + left. exists root'', q. destruct Hdisp as [Hin _].
      split; [by apply list_elem_of_further | done].
    + right. exists filter. subst q. injection Hqe as ->.
      split_and!; [by eapply list_elem_of_lookup_2 | done | done].
  - intros Honly Hprops.
    apply all_Rejected in Hall as (q & [i Hq]%list_elem_of_lookup & Hqe & _).
    destruct (Forall2_lookup_r _ _ _ _ _ Hd Hq) as (filter & Hf & Hdisp).
    unfold dispatched in Hdisp.
    destruct (findExisting previous filter) as [existing|] eqn:Hfind.
    { subst q. discriminate. }
    specialize (Hprops filter (list_elem_of_lookup_2 _ _ _ Hf) Hfind).
    destruct (subscriptionContext filter) as [root''|e0]; [|done].
    destruct Hdisp as [Hin _].
    assert (q = p) as ->.
    { apply (Honly root''); [by apply list_elem_of_further |].
      intros Hres. by rewrite Hqe in Hres. }
    congruence.
Qed.

End FactoryFailure.

(** The factory fails on /sub/3: the pass fails with the factory's error
    and B, found in the previous list, is not returned either. *)
Lemma factory_failure_fails_the_pass_witness :
  ∃ e', (loadMoreChildrenImpl false 0 Fixture.failingScenario).1 = Rejected e' ∧
        _subscriptionTreeItems (this (loadMoreChildrenImpl false 0 Fixture.failingScenario).2)
          = Some [] ∧
        e' = Error "createSubscriptionTreeItem failed".
Proof.
  destruct (factory_failure_fails_the_pass false 0 Fixture.failingScenario Fixture.theAccount
              (mkPromise 1 (Resolved true)) (world Fixture.failingScenario) true
              (Fixture.rootFor "/sub/3")
              (mkPromise 1 (Rejected (Error "createSubscriptionTreeItem failed")))
              (Error "createSubscriptionTreeItem failed")
              ltac:(vm_compute; reflexivity) ltac:(vm_compute; reflexivity)
              ltac:(vm_compute; reflexivity) ltac:(vm_compute; reflexivity)
              ltac:(vm_compute; discriminate)
              ltac:(vm_compute; apply list_elem_of_further, list_elem_of_here)
              ltac:(reflexivity))
    as (e' & Hrun & Hcache & _ & Honly).
  exists e'. split_and!; [done | done |].
  apply Honly.
  - intros root'' q Hin _. vm_compute in Hin.
    apply elem_of_cons in Hin as [[=]|Hin].
    apply list_elem_of_singleton in Hin. by injection Hin as _ ->.
  - intros filter Hin _.
    apply elem_of_cons in Hin as [->|Hin]; [exact I|].
    apply list_elem_of_singleton in Hin as ->. exact I.
Defined.

(** ** The placeholders *)

Section Placeholders.

Context {World : Type} `{!Host World}.
Implicit Types (st : St World).

(** The branch of [loadMoreChildrenImpl] with no filter. *)
Lemma no_filters_placeholder cc context st azureAccount ready w1 b :
  settled (_azureAccountTask (this st)) = Resolved (Some azureAccount) →
  account_status azureAccount (world st) = LoggedIn →
  account_waitForFilters azureAccount (world st) = (ready, w1) →
  settled ready = Resolved b →
  account_filters azureAccount w1 = [] →
  ∃ placeholder st',
    loadMoreChildrenImpl cc context st = (Resolved [Generic placeholder], st') ∧
    _subscriptionTreeItems (this st') = Some [] ∧
    _azureAccountTask (this st') = _azureAccountTask (this st) ∧
    placeholder =
      {| label := selectSubscriptionsLabel;
         commandId := Some selectSubscriptionsCommandId;
         contextValue := "azureCommand";
         generic_id := Some selectSubscriptionsCommandId;
         iconPath := None;
         includeInTreeItemPicker := Some true;
         commandArgs := None |} ∧
    trace st' = trace st ++ [CallWaitForFilters azureAccount].
Proof.
  intros Htask Hstatus Hwait Hready Hnone.
  unfold loadMoreChildrenImpl, bind, gets, await, setTelemetry, setSubscriptionTreeItems,
    modify, callHost. simpl.
  rewrite Htask, Hstatus. simpl. rewrite Hwait, Hready. simpl. rewrite Hnone. simpl.
  by eexists _, _.
Qed.

(** C8. Logged in and, once the wait for the filters is over, no filter:
    the children are exactly the one "Select Subscriptions..."
    placeholder, which carries the command that selects subscriptions. *)
Theorem no_filters_gives_select_subscriptions cc context st azureAccount ready w1 b
    (Htask : settled (_azureAccountTask (this st)) = Resolved (Some azureAccount))
    (Hstatus : account_status azureAccount (world st) = LoggedIn)
    (Hwait : account_waitForFilters azureAccount (world st) = (ready, w1))
    (Hready : settled ready = Resolved b)
    (Hnone : account_filters azureAccount w1 = []) :
  ∃ placeholder st',
    loadMoreChildrenImpl cc context st = (Resolved [Generic placeholder], st') ∧
    placeholder =
      {| label := selectSubscriptionsLabel;
         commandId := Some selectSubscriptionsCommandId;
         contextValue := "azureCommand";
         generic_id := Some selectSubscriptionsCommandId;
         iconPath := None;
         includeInTreeItemPicker := Some true;
         commandArgs := None |} ∧
    actionable (Generic placeholder) ∧
    trace st' = trace st ++ [CallWaitForFilters azureAccount].
Proof.
  destruct (no_filters_placeholder cc context st azureAccount ready w1 b
              Htask Hstatus Hwait Hready Hnone)
    as (placeholder & st' & Hrun & _ & _ & -> & Htrace).
  eexists _, st'. split_and!; [done | done | by eexists | done].
Qed.

(** C5, as the code has it. While the account is initializing the
    children are exactly one "Loading..." placeholder; it is left out of
    the tree item picker, and it carries the sign-in command, as its
    command and as its id. *)
Theorem initializing_gives_loading cc context st azureAccount
    (Htask : settled (_azureAccountTask (this st)) = Resolved (Some azureAccount))
    (Hstatus : account_status azureAccount (world st) = Initializing) :
  ∃ placeholder st',
    loadMoreChildrenImpl cc context st = (Resolved [Generic placeholder], st') ∧
    placeholder =
      {| label := localize "loadingTreeItem" "Loading...";
         commandId := Some signInCommandId;
         contextValue := "azureCommand";
         generic_id := Some signInCommandId;
         iconPath := Some loadingIconPath;
         includeInTreeItemPicker := None;
         commandArgs := None |} ∧
    actionable (Generic placeholder) ∧
    trace st' = trace st.
Proof.
  unfold loadMoreChildrenImpl, bind, gets, await, setTelemetry, setSubscriptionTreeItems,
    modify, callHost. simpl.
  rewrite Htask, Hstatus. simpl.
  eexists _, _. split_and!; [reflexivity | reflexivity | by eexists | done].
Qed.

(** Without an account the children are the one node that opens the
    extension's page, and nothing is called. *)
Lemma loadMoreChildrenImpl_absent cc context st :
  settled (_azureAccountTask (this st)) = Resolved None →
  ∃ st',
    loadMoreChildrenImpl cc context st =
      (Resolved [Generic
         {| label := localize "installAzureAccount" "Install Azure Account Extension...";
            commandId := Some extensionOpenCommand;
            contextValue := "installAzureAccount";
            generic_id := None;
            iconPath := None;
            includeInTreeItemPicker := Some true;
            commandArgs := Some [VString azureAccountExtensionId] |}], st') ∧
    this st' = this st ∧ listeners st' = listeners st ∧ trace st' = trace st.
Proof.
  intros Htask.
  unfold loadMoreChildrenImpl, bind, gets, await, setTelemetry, modify. simpl.
  rewrite Htask. simpl. by eexists.
Qed.

(** The constructor with no test account and no extension: the account
    is absent, no listener is registered and nothing is called. *)
Lemma constructor_absent heap w :
  extensions_getExtension azureAccountExtensionId w = None →
  _azureAccountTask (this (constructor None heap w)) = mkPromise 0 (Resolved None) ∧
  _subscriptionTreeItems (this (constructor None heap w)) = None ∧
  listeners (constructor None heap w) = [] ∧
  trace (constructor None heap w) = [].
Proof.
  intros Habsent.
  unfold constructor, loadAzureAccount, bind, gets. simpl. rewrite Habsent. done.
Qed.

(** With no account, [ensureSubscriptionTreeItems] shows the warning,
    opens the extension's page when the answer is the item offered, and
    calls nothing else. *)
Lemma ensureSubscriptionTreeItems_absent_trace context st :
  settled (_azureAccountTask (this st)) = Resolved None →
  ∃ message items,
    trace (ensureSubscriptionTreeItems context st).2 =
      trace st ++ [CallShowWarningMessage message items] ∨
    trace (ensureSubscriptionTreeItems context st).2 =
      trace st ++ [CallShowWarningMessage message items;
                   CallExecuteCommand extensionOpenCommand [VString azureAccountExtensionId]].
Proof.
  intros Htask.
  unfold ensureSubscriptionTreeItems, bind, gets, await, setTelemetry, modify, callHost, throw.
  simpl. rewrite Htask. simpl.
  destruct (ui_showWarningMessage _ _ (world st)) as [answer w1]. simpl.
  eexists _, _.
  destruct (settled answer) as [picked|e]; simpl; [|by left].
  case_bool_decide; simpl; [|by left].
  destruct (commands_executeCommand _ _ w1) as [opened w2]. simpl.
  right. destruct (settled opened); simpl; by rewrite <- app_assoc.
Qed.

(** C6. When the account extension is not installed (and no test account
    is given), the children are exactly one node, which carries the
    command that opens the extension's page, and the host's
    [isAzureAccountInstalled] context is not set: not by the
    constructor, not by loading the children, and not by the resolver
    either. *)
Theorem not_installed_gives_install_node heap w cc context
    (Habsent : extensions_getExtension azureAccountExtensionId w = None) :
  ∃ node st',
    loadMoreChildrenImpl cc context (constructor None heap w) = (Resolved [Generic node], st') ∧
    label node = localize "installAzureAccount" "Install Azure Account Extension..." ∧
    commandId node = Some extensionOpenCommand ∧
    commandArgs node = Some [VString azureAccountExtensionId] ∧
    actionable (Generic node) ∧
    trace st' = [] ∧
    ∀ context',
      Forall (λ c, ¬ setsInstalledFlag c) (trace (ensureSubscriptionTreeItems context' st').2).
Proof.
  destruct (constructor_absent heap w Habsent) as (Htask & _ & _ & Htrace).
  destruct (loadMoreChildrenImpl_absent cc context (constructor None heap w))
    as (st' & Hrun & Hthis & _ & Htrace'); [by rewrite Htask|].
  eexists _, st'. split_and!; [done | done | done | done | by eexists | congruence |].
  intros context'.
  destruct (ensureSubscriptionTreeItems_absent_trace context' st') as (message & items & Hcases).
  { by rewrite Hthis, Htask. }
  rewrite Htrace', Htrace in Hcases. simpl in Hcases.
  destruct Hcases as [-> | ->]; repeat constructor; intros [args [=]].
Qed.

End Placeholders.

(** The registrations [loadAzureAccount] makes, and what an event does. *)
Section RefreshTrigger.

Context {World : Type} `{!Host World}.
Implicit Types (st : St World).

Lemma constructor_listeners testAccount heap w azureAccount :
  settled (_azureAccountTask (this (constructor testAccount heap w)))
    = Resolved (Some azureAccount) →
  listeners (constructor testAccount heap w) =
    [ {| emitter := onFiltersChanged; account := azureAccount;
         listener := filtersChangedCallback |};
      {| emitter := onStatusChanged; account := azureAccount;
         listener := statusChangedCallback |} ].
Proof.
  unfold constructor, loadAzureAccount, bind, gets, await, subscribe, pushDisposable,
    modify, callHost, ret. simpl.
  destruct testAccount as [a|]; simpl.
  - destruct (commands_executeCommand _ _ w) as [p w']. simpl.
    destruct (settled p); simpl; [|done]. by intros [= ->].
  - destruct (extensions_getExtension azureAccountExtensionId w) as [extension|]; simpl; [|done].
    destruct (isActive extension); simpl.
    + destruct (commands_executeCommand _ _ w) as [p w']. simpl.
      destruct (settled p); simpl; [|done]. by intros [= ->].
    + destruct (extension_activate extension w) as [q w0]. simpl.
      destruct (settled q); simpl; [|done].
      destruct (commands_executeCommand _ _ w0) as [p w']. simpl.
      destruct (settled p); simpl; [|done]. by intros [= ->].
Qed.

(** C4. Once the account is acquired, its listeners are the two the
    constructor registered.  A status-changed event whose new status is
    [LoggedIn] asks for no refresh; a status-changed event with any other
    status asks for one; and a filters-changed event asks for one
    whatever the state, the status included. *)
Theorem refresh_unless_LoggedIn testAccount heap w azureAccount st
    (Hacquired : settled (_azureAccountTask (this (constructor testAccount heap w)))
                   = Resolved (Some azureAccount))
    (Hlisteners : listeners st = listeners (constructor testAccount heap w)) :
  (∃ st', fire azureAccount (StatusChanged LoggedIn) st = (Resolved tt, st') ∧
          trace st' = trace st) ∧
  (∀ status, status ≠ LoggedIn →
     ∃ st', fire azureAccount (StatusChanged status) st = (Resolved tt, st') ∧
            trace st' = trace st ++ [CallRefresh]) ∧
  (∃ st', fire azureAccount FiltersChanged st = (Resolved tt, st') ∧
          trace st' = trace st ++ [CallRefresh]).
Proof.
  rewrite (constructor_listeners _ _ _ _ Hacquired) in Hlisteners.
  unfold fire, bind, gets. simpl. rewrite Hlisteners. simpl.
  unfold bind, deliver, runCallback, refresh, modify, ret. simpl.
  rewrite !bool_decide_eq_true_2 by done. simpl.
  split_and!.
  - by eexists.
  - intros status Hstatus.
    rewrite bool_decide_eq_true_2 by congruence. by eexists.
  - by eexists.
Qed.

End RefreshTrigger.

(** The account of the concrete host is logged in and has no filter. *)
Lemma no_filters_gives_select_subscriptions_witness :
  ∃ placeholder,
    (loadMoreChildrenImpl false 0 Fixture.noFilters).1 = Resolved [Generic placeholder] ∧
    label placeholder = "Select Subscriptions..." ∧
    commandId placeholder = Some "azure-account.selectSubscriptions".
Proof.
  destruct (no_filters_gives_select_subscriptions false 0 Fixture.noFilters Fixture.theAccount
              (mkPromise 1 (Resolved true)) (world Fixture.noFilters) true
              ltac:(vm_compute; reflexivity) ltac:(vm_compute; reflexivity)
              ltac:(vm_compute; reflexivity) ltac:(vm_compute; reflexivity)
              ltac:(vm_compute; reflexivity))
    as (placeholder & st' & Hrun & -> & _ & _).
  eexists. rewrite Hrun. split_and!; reflexivity.
Defined.

Lemma initializing_gives_loading_witness :
  ∃ placeholder,
    (loadMoreChildrenImpl false 0 Fixture.initializing).1 = Resolved [Generic placeholder] ∧
    label placeholder = "Loading..." ∧
    commandId placeholder = Some "azure-account.login" ∧
    includeInTreeItemPicker placeholder = None.
Proof.
  destruct (initializing_gives_loading false 0 Fixture.initializing Fixture.theAccount
              ltac:(vm_compute; reflexivity) ltac:(vm_compute; reflexivity))
    as (placeholder & st' & Hrun & -> & _ & _).
  eexists. rewrite Hrun. split_and!; reflexivity.
Defined.

(** C5 as it is stated fails: the "Loading..." placeholder of the
    initializing account is not without a command, it carries
    [azure-account.login]. *)
Lemma loading_placeholder_carries_a_command :
  ¬ ∃ placeholder,
      (loadMoreChildrenImpl false 0 Fixture.initializing).1 = Resolved [Generic placeholder] ∧
      commandId placeholder = None.
Proof.
  intros (placeholder & Hrun & Hnone).
  vm_compute in Hrun. injection Hrun as <-. discriminate.
Qed.

Lemma not_installed_gives_install_node_witness :
  ∃ node st',
    loadMoreChildrenImpl false 0
      (constructor None (λ _, emptyContext) (Fixture.worldWithout (Rejected UserCancelledError)))
      = (Resolved [Generic node], st') ∧
    label node = "Install Azure Account Extension..." ∧
    trace st' = [].
Proof.
  destruct (@not_installed_gives_install_node _ Fixture.testHost (λ _, emptyContext)
              (Fixture.worldWithout (Rejected UserCancelledError)) false 0
              ltac:(vm_compute; reflexivity))
    as (node & st' & Hrun & Hlabel & _ & _ & _ & Htrace & _).
  exists node, st'. split_and!; [done | by rewrite Hlabel | done].
Defined.

Lemma refresh_unless_LoggedIn_witness :
  let st := constructor None (λ _, emptyContext) (Fixture.worldWith LoggedIn [] []) in
  (∃ st', fire Fixture.theAccount (StatusChanged LoggedIn) st = (Resolved tt, st') ∧
          trace st' = trace st) ∧
  (∃ st', fire Fixture.theAccount (StatusChanged LoggedOut) st = (Resolved tt, st') ∧
          trace st' = trace st ++ [CallRefresh]) ∧
  (∃ st', fire Fixture.theAccount FiltersChanged st = (Resolved tt, st') ∧
          trace st' = trace st ++ [CallRefresh]).
Proof.
  intros st.
  destruct (@refresh_unless_LoggedIn _ Fixture.testHost None (λ _, emptyContext)
              (Fixture.worldWith LoggedIn [] [])
              Fixture.theAccount st ltac:(vm_compute; reflexivity) eq_refl)
    as (Hin & Hother & Hfilters).
  split_and!; [done | | done].
  apply Hother. discriminate.
Defined.

(** ** Failure of a pass, and the resolver *)

Section Resolver.

Context {World : Type} `{!Host World}.
Implicit Types (st : St World).

Lemma subscriptionContext_Rejected filter e :
  subscriptionContext filter = Rejected e → ∃ name, e = Error (nullValueMessage name).
Proof.
  unfold subscriptionContext, nonNullProp, nonNullValue.
  destruct (subscription_displayName _); [|intros [= <-]; by eexists].
  destruct (subscription_subscriptionId _); [|intros [= <-]; by eexists].
  destruct (subscription_id _); [done | intros [= <-]; by eexists].
Qed.

(** With the account there, [loadMoreChildrenImpl] always leaves a list
    in the cache, and the empty one when it fails; it fails only by the
    wait for the filters, by the factory or by a missing property. *)
Lemma loadMoreChildrenImpl_present cc context st azureAccount :
  settled (_azureAccountTask (this st)) = Resolved (Some azureAccount) →
  ∃ items,
    _subscriptionTreeItems (this (loadMoreChildrenImpl cc context st).2) = Some items ∧
    _azureAccountTask (this (loadMoreChildrenImpl cc context st).2)
      = _azureAccountTask (this st) ∧
    ∀ e, (loadMoreChildrenImpl cc context st).1 = Rejected e →
      items = [] ∧
      ((∃ w, settled (account_waitForFilters azureAccount w).1 = Rejected e) ∨
       (∃ root' w, settled (createSubscriptionTreeItem root' w).1 = Rejected e) ∨
       (∃ name, e = Error (nullValueMessage name))).
Proof.
  intros Htask.
  destruct (account_status azureAccount (world st)) eqn:Hstatus.
  1, 2, 4:
    unfold loadMoreChildrenImpl, bind, gets, await, setTelemetry, setSubscriptionTreeItems,
      modify, callHost; simpl; rewrite Htask, Hstatus; simpl; by eexists.
  destruct (account_waitForFilters azureAccount (world st)) as [ready w1] eqn:Hwait.
  destruct (settled ready) as [b|e0] eqn:Hready.
  - destruct (decide (account_filters azureAccount w1 = [])) as [Hnone|Hsome].
    + destruct (no_filters_placeholder cc context st azureAccount ready w1 b)
        as (placeholder & st' & Hrun & Hcache & Htask' & _); try done.
      rewrite Hrun. simpl. eexists. by rewrite Htask'.
    + destruct (loadMoreChildrenImpl_pass cc context st azureAccount ready w1 b)
        as (promises & calls & st1 & Hd & Hcalls & Hrun & Hcache & Htask' & Htrace); try done.
      rewrite Hrun. simpl. eexists. split_and!; [done | done |].
      intros e He.
      destruct (settled (PromiseNS.all promises)) as [items|e'] eqn:Hall; [done|].
      injection He as ->. split; [done|].
      apply all_Rejected in Hall as (q & [i Hq]%list_elem_of_lookup & Hqe & _).
      destruct (Forall2_lookup_r _ _ _ _ _ Hd Hq) as (filter & Hf & Hdisp).
      unfold dispatched in Hdisp.
      destruct (findExisting _ filter) as [existing|]; [by subst q|].
      destruct (subscriptionContext filter) as [root'|e1] eqn:Hctx.
      * destruct Hdisp as [_ [w Hw]]. right. left. exists root', w. by rewrite Hw.
      * subst q. injection Hqe as ->. right. right.
        by eapply subscriptionContext_Rejected.
  - unfold loadMoreChildrenImpl, bind, gets, await, setTelemetry, setSubscriptionTreeItems,
      modify, callHost; simpl. rewrite Htask, Hstatus; simpl. rewrite Hwait, Hready. simpl.
    eexists. split_and!; [done | done |]. intros e [= <-]. split; [done|].
    left. exists (world st). by rewrite Hwait.
Qed.

End Resolver.

Section FailedPass.

Context {World : Type} `{!Host World}.
Implicit Types (st : St World).

(** C9. A pass that fails (the account there) leaves the cache empty:
    the nodes of the generation before are gone.  A later pass on that
    cache that returns has, for every filter, a node made by a factory
    call of its own, whether or not a node with the filter's id was in
    the cache before the failure. *)
Theorem failed_pass_leaves_cache_empty cc context st azureAccount e st1
    (Htask : settled (_azureAccountTask (this st)) = Resolved (Some azureAccount))
    (Hfail : loadMoreChildrenImpl cc context st = (Rejected e, st1)) :
  _subscriptionTreeItems (this st1) = Some [] ∧
  ∀ st2 cc' context' ready w b out st3,
    this st2 = this st1 →
    account_status azureAccount (world st2) = LoggedIn →
    account_waitForFilters azureAccount (world st2) = (ready, w) →
    settled ready = Resolved b →
    account_filters azureAccount w ≠ [] →
    loadMoreChildrenImpl cc' context' st2 = (Resolved out, st3) →
    ∃ nodes calls,
      out = SubscriptionItem <$> nodes ∧
      _subscriptionTreeItems (this st3) = Some nodes ∧
      trace st3 = trace st2 ++ CallWaitForFilters azureAccount :: calls ∧
      length nodes = length (account_filters azureAccount w) ∧
      ∀ i filter, account_filters azureAccount w !! i = Some filter →
        ∃ node, nodes !! i = Some node ∧ created calls filter node.
Proof.
  destruct (loadMoreChildrenImpl_present cc context st azureAccount Htask)
    as (items & Hcache & Htask1 & Hrej).
  rewrite Hfail in Hcache, Htask1, Hrej. simpl in *.
  destruct (Hrej e eq_refl) as [-> _]. split; [done|].
  intros st2 cc' context' ready w b out st3 Hthis Hstatus Hwait Hready Hsome Hrun.
  destruct (loadMoreChildrenImpl_pass cc' context' st2 azureAccount ready w b)
    as (promises & calls & st' & Hd & Hcalls & Hrun' & Hcache' & _ & Htrace); try done.
  { by rewrite Hthis, Htask1. }
  rewrite Hthis, Hcache in Hd. simpl in Hd.
  rewrite Hrun' in Hrun.
  destruct (settled (PromiseNS.all promises)) as [nodes|e'] eqn:Hall; [|done].
  injection Hrun as <- <-. apply all_Resolved in Hall.
  destruct (dispatched_resolved _ _ _ _ _ Hd Hall) as [Hlen Hnodes].
  exists nodes, calls. split_and!; try done.
Qed.

End FailedPass.

(** The factory fails on /sub/3 and the pass fails; the cache, which held
    A and B, is empty.  The next pass makes a node for /sub/2 too, and it
    is not B. *)
Lemma failed_pass_leaves_cache_empty_witness :
  _subscriptionTreeItems (this (loadMoreChildrenImpl false 0 Fixture.failingScenario).2) = Some [] ∧
  ∃ nodes calls node,
    (loadMoreChildrenImpl false 0 Fixture.retry).1 = Resolved (SubscriptionItem <$> nodes) ∧
    nodes !! 0 = Some node ∧
    created calls (Fixture.filterFor "/sub/2") node ∧
    treeItem_id node = treeItem_id Fixture.nodeB ∧
    node ≠ Fixture.nodeB.
Proof.
  destruct (failed_pass_leaves_cache_empty false 0 Fixture.failingScenario Fixture.theAccount
              (Error "createSubscriptionTreeItem failed")
              (loadMoreChildrenImpl false 0 Fixture.failingScenario).2
              ltac:(vm_compute; reflexivity) ltac:(vm_compute; reflexivity))
    as [Hempty Hnext].
  split; [done|].
  destruct (Hnext Fixture.retry false 0 (mkPromise 1 (Resolved true)) (world Fixture.retry) true
              [SubscriptionItem (Fixture.nodeFor 3 "/sub/2");
               SubscriptionItem (Fixture.nodeFor 4 "/sub/3")]
              (loadMoreChildrenImpl false 0 Fixture.retry).2
              ltac:(vm_compute; reflexivity) ltac:(vm_compute; reflexivity)
              ltac:(vm_compute; reflexivity) ltac:(vm_compute; reflexivity)
              ltac:(vm_compute; discriminate) ltac:(vm_compute; reflexivity))
    as (nodes & calls & Hout & _ & _ & _ & Hnodes).
  destruct (Hnodes 0 (Fixture.filterFor "/sub/2") eq_refl) as (node & Hnode & Hcreated).
  exists nodes, calls, node.
  assert (node = Fixture.nodeFor 3 "/sub/2") as Heq.
  { destruct nodes as [|n nodes]; [discriminate|].
    injection Hout as Hn _. injection Hnode as <-. congruence. }
  split_and!; [| done | done | by rewrite Heq | by rewrite Heq].
  replace (loadMoreChildrenImpl false 0 Fixture.retry).1
    with (Resolved [SubscriptionItem (Fixture.nodeFor 3 "/sub/2");
                    SubscriptionItem (Fixture.nodeFor 4 "/sub/3")])
    by (vm_compute; reflexivity).
  by rewrite Hout.
Defined.

(** ** The subscription prompt step *)

Section PromptStep.

Context {World : Type} `{!Host World}.
Implicit Types (st : St World).

Lemma getSubscriptionPromptStep_after context st subscriptions st1 :
  ensureSubscriptionTreeItems context st = (Resolved subscriptions, st1) →
  getSubscriptionPromptStep context st =
    (if bool_decide (length subscriptions = 1) then
       match subscriptions !! 0 with
       | Some first =>
           bind (modify (with_context context (λ c, Object_assign c (root first))))
             (λ _, ret None)
       | None => throw (Error "TypeError")
       end
     else ret (Some {| step_context := context |})) st1.
Proof. intros Hensure. unfold getSubscriptionPromptStep, bind at 1. by rewrite Hensure. Qed.

(** C3. With exactly one subscription in the materialized list,
    [getSubscriptionPromptStep] writes the properties of that
    subscription's [root] into the caller's context object and returns
    no step; with two or more it returns a step, leaves the context as
    it is, and the step's [shouldPrompt] is false exactly when the
    context holds a [subscriptionId] (a non-empty one: the test is
    JavaScript's [!context.subscriptionId]). *)
Theorem prompt_step_by_subscription_count context st subscriptions st1
    (Hensure : ensureSubscriptionTreeItems context st = (Resolved subscriptions, st1)) :
  (∀ first, subscriptions = [first] →
     ∃ st',
       getSubscriptionPromptStep context st = (Resolved None, st') ∧
       contexts st' context = Object_assign (contexts st1 context) (root first) ∧
       context_credentials (contexts st' context) = Some (credentials (root first)) ∧
       context_subscriptionDisplayName (contexts st' context)
         = Some (subscriptionDisplayName (root first)) ∧
       context_subscriptionId (contexts st' context) = Some (subscriptionId (root first)) ∧
       context_subscriptionPath (contexts st' context)
         = Some (subscriptionPath (root first)) ∧
       context_tenantId (contexts st' context) = Some (tenantId (root first)) ∧
       context_userId (contexts st' context) = Some (userId (root first)) ∧
       context_environment (contexts st' context) = Some (environment (root first)) ∧
       telemetry_properties (contexts st' context)
         = telemetry_properties (contexts st1 context) ∧
       (∀ other, other ≠ context → contexts st' other = contexts st1 other) ∧
       this st' = this st1 ∧ trace st' = trace st1) ∧
  (2 ≤ length subscriptions →
     ∃ step,
       getSubscriptionPromptStep context st = (Resolved (Some step), st1) ∧
       ∀ st2, shouldPrompt step st2 = false ↔
              ∃ id, context_subscriptionId (contexts st2 context) = Some id ∧ id ≠ "").
Proof.
  rewrite !(getSubscriptionPromptStep_after _ _ _ _ Hensure). split.
  - intros first ->. simpl. unfold bind, modify, ret, with_context. simpl.
    eexists. split; [reflexivity|]. simpl.
    rewrite (bool_decide_eq_true_2 (context = context) eq_refl).
    split_and!; try done.
    intros other Hother. by rewrite bool_decide_eq_false_2.
  - intros Hlen. rewrite bool_decide_eq_false_2 by lia.
    eexists. split; [reflexivity|].
    intros st2. unfold shouldPrompt, truthy. simpl.
    destruct (context_subscriptionId (contexts st2 context)) as [id|]; simpl.
    + rewrite negb_involutive. destruct (String.eqb_spec id "") as [->|Hne].
      * split; [done|]. by intros (? & [= <-] & ?).
      * split; [|done]. intros _. by exists id.
    + split; [done|]. by intros (? & [=] & _).
Qed.

(** Without the account the resolver fails. *)
Lemma ensureSubscriptionTreeItems_absent context st answer w1 :
  settled (_azureAccountTask (this st)) = Resolved None →
  ui_showWarningMessage requiresAzureAccountMessage [viewInMarketplaceItem] (world st)
    = (answer, w1) →
  let warn := CallShowWarningMessage requiresAzureAccountMessage [viewInMarketplaceItem] in
  let open := CallExecuteCommand extensionOpenCommand [VString azureAccountExtensionId] in
  let r := ensureSubscriptionTreeItems context st in
  match settled answer with
  | Rejected e => r.1 = Rejected e ∧ trace r.2 = trace st ++ [warn]
  | Resolved picked =>
      if bool_decide (picked = viewInMarketplaceItem) then
        r.1 = match settled (commands_executeCommand extensionOpenCommand
                               [VString azureAccountExtensionId] w1).1 with
              | Resolved _ => Rejected UserCancelledError
              | Rejected e => Rejected e
              end ∧
        trace r.2 = trace st ++ [warn; open]
      else r.1 = Rejected UserCancelledError ∧ trace r.2 = trace st ++ [warn]
  end.
Proof.
  intros Htask Hask. simpl.
  unfold ensureSubscriptionTreeItems, bind, gets, await, setTelemetry, modify, callHost, throw.
  simpl. rewrite Htask. simpl. rewrite Hask. simpl.
  destruct (settled answer) as [picked|e]; simpl; [|done].
  case_bool_decide; simpl; [|done].
  destruct (commands_executeCommand _ _ w1) as [opened w2]. simpl.
  destruct (settled opened); simpl; by rewrite <- app_assoc.
Qed.

Lemma ensureSubscriptionTreeItems_absent_rejects context st :
  settled (_azureAccountTask (this st)) = Resolved None →
  ∃ e, (ensureSubscriptionTreeItems context st).1 = Rejected e.
Proof.
  intros Htask.
  destruct (ui_showWarningMessage requiresAzureAccountMessage [viewInMarketplaceItem] (world st))
    as [answer w1] eqn:Hask.
  pose proof (ensureSubscriptionTreeItems_absent context st answer w1 Htask Hask) as Hcases.
  simpl in Hcases.
  destruct (settled answer) as [picked|e]; [|by exists e; apply Hcases].
  case_bool_decide; [|by eexists; apply Hcases].
  destruct Hcases as [Hr _]. rewrite Hr.
  destruct (settled (commands_executeCommand extensionOpenCommand
                       [VString azureAccountExtensionId] w1).1); by eexists.
Qed.

(** With the account there the resolver hands back the cached list,
    after one loading of the children when there is none yet. *)
Lemma ensureSubscriptionTreeItems_present context st azureAccount :
  settled (_azureAccountTask (this st)) = Resolved (Some azureAccount) →
  ensureSubscriptionTreeItems context st =
    match _subscriptionTreeItems (this st) with
    | Some items => (Resolved items, st)
    | None =>
        (match (loadMoreChildrenImpl true context st).1 with
         | Resolved _ =>
             Resolved (default []
               (_subscriptionTreeItems (this (loadMoreChildrenImpl true context st).2)))
         | Rejected e => Rejected e
         end, (loadMoreChildrenImpl true context st).2)
    end.
Proof.
  intros Htask.
  destruct (loadMoreChildrenImpl_present true context st azureAccount Htask)
    as (items & Hcache & _).
  unfold ensureSubscriptionTreeItems, getCachedChildren, bind, gets, await. simpl.
  rewrite Htask. simpl.
  destruct (_subscriptionTreeItems (this st)) as [cached|] eqn:Hcached; simpl.
  - by rewrite Hcached.
  - destruct (loadMoreChildrenImpl true context st) as [[out|e] st'] eqn:Hrun; simpl in *.
    + by rewrite Hcache.
    + done.
Qed.

(** C10. When the materialized list is empty (the account there, no
    subscription), [getSubscriptionPromptStep] does not fail and
    resolves nothing by itself: it returns the prompt step, the one it
    returns for two or more subscriptions, and leaves the context as the
    materialization left it. *)
Theorem no_subscription_gives_prompt_step context st st1
    (Hensure : ensureSubscriptionTreeItems context st = (Resolved [], st1)) :
  (∃ azureAccount, settled (_azureAccountTask (this st)) = Resolved (Some azureAccount)) ∧
  getSubscriptionPromptStep context st
    = (Resolved (Some {| step_context := context |}), st1) ∧
  (∀ st2 subscriptions st3,
     ensureSubscriptionTreeItems context st2 = (Resolved subscriptions, st3) →
     2 ≤ length subscriptions →
     getSubscriptionPromptStep context st2
       = (Resolved (Some {| step_context := context |}), st3)).
Proof.
  split_and!.
  - destruct (settled (_azureAccountTask (this st))) as [[azureAccount|]|e] eqn:Htask.
    + by exists azureAccount.
    + destruct (ensureSubscriptionTreeItems_absent_rejects context st Htask) as [e He].
      rewrite Hensure in He. discriminate.
    + revert Hensure.
      unfold ensureSubscriptionTreeItems, bind, gets, await. simpl. by rewrite Htask.
  - by rewrite (getSubscriptionPromptStep_after _ _ _ _ Hensure).
  - intros st2 subscriptions st3 Hensure2 Hlen.
    rewrite (getSubscriptionPromptStep_after _ _ _ _ Hensure2).
    by rewrite bool_decide_eq_false_2 by lia.
Qed.

(** C7, as the code has it. With the account absent the resolver shows
    the warning with the "View in Marketplace" item and then raises
    [UserCancelledError] whatever item the user picks: also after the
    user picked the item offered and the extension's page was opened.
    (When the dialog itself rejects, its error is what is raised.) And
    the class raises [UserCancelledError] in that case only: with the
    account there, and collaborators that do not reject with it, the
    resolver does not. *)
Theorem provider_absent_raises_UserCancelled context st :
  let warn := CallShowWarningMessage requiresAzureAccountMessage [viewInMarketplaceItem] in
  let open := CallExecuteCommand extensionOpenCommand [VString azureAccountExtensionId] in
  let r := ensureSubscriptionTreeItems context st in
  (settled (_azureAccountTask (this st)) = Resolved None →
   ∀ answer w1,
     ui_showWarningMessage requiresAzureAccountMessage [viewInMarketplaceItem] (world st)
       = (answer, w1) →
     (∀ picked, settled answer = Resolved picked →
        (picked = viewInMarketplaceItem →
         is_resolved (settled (commands_executeCommand extensionOpenCommand
                                 [VString azureAccountExtensionId] w1).1)) →
        r.1 = Rejected UserCancelledError ∧
        trace r.2 = trace st ++
          warn :: (if bool_decide (picked = viewInMarketplaceItem) then [open] else [])) ∧
     (∀ e, settled answer = Rejected e →
        r.1 = Rejected e ∧ trace r.2 = trace st ++ [warn])) ∧
  (∀ azureAccount,
     settled (_azureAccountTask (this st)) = Resolved (Some azureAccount) →
     (∀ w, settled (account_waitForFilters azureAccount w).1 ≠ Rejected UserCancelledError) →
     (∀ root' w, settled (createSubscriptionTreeItem root' w).1 ≠ Rejected UserCancelledError) →
     r.1 ≠ Rejected UserCancelledError).
Proof.
  intros warn open r. split.
  - intros Htask answer w1 Hask.
    pose proof (ensureSubscriptionTreeItems_absent context st answer w1 Htask Hask) as Hcases.
    simpl in Hcases. fold r in Hcases. split.
    + intros picked Hpicked Hopened. rewrite Hpicked in Hcases.
      case_bool_decide as Hitem; [|done].
      destruct Hcases as [-> ->]. specialize (Hopened Hitem).
      split; [|done].
      by destruct (settled (commands_executeCommand extensionOpenCommand
                              [VString azureAccountExtensionId] w1).1).
    + intros e He. by rewrite He in Hcases.
  - intros azureAccount Htask Hwait Hfactory. subst r.
    rewrite (ensureSubscriptionTreeItems_present context st azureAccount Htask).
    destruct (_subscriptionTreeItems (this st)); [done|]. simpl.
    destruct (loadMoreChildrenImpl_present true context st azureAccount Htask)
      as (items & _ & _ & Hrej).
    destruct ((loadMoreChildrenImpl true context st).1) as [out|e]; [done|].
    destruct (Hrej e eq_refl) as [_ [[w Hw]|[(root' & w & Hw)|[name ->]]]].
    + intros [= ->]. by apply (Hwait w).
    + intros [= ->]. by apply (Hfactory root' w).
    + done.
Qed.

End PromptStep.

(** One subscription loaded: its properties are written into context 0
    and there is no step.  Two loaded: a step, which prompts as long as the
    context holds no subscription id. *)
Lemma prompt_step_by_subscription_count_witness :
  (∃ st', getSubscriptionPromptStep 0 Fixture.oneSubscription = (Resolved None, st') ∧
          context_subscriptionId (contexts st' 0) = Some "guid" ∧
          context_subscriptionPath (contexts st' 0) = Some "/sub/2") ∧
  (∃ step, (getSubscriptionPromptStep 0 Fixture.scenario).1 = Resolved (Some step) ∧
           shouldPrompt step Fixture.scenario = true).
Proof.
  split.
  - destruct (prompt_step_by_subscription_count 0 Fixture.oneSubscription [Fixture.nodeB]
                Fixture.oneSubscription ltac:(vm_compute; reflexivity)) as [Hone _].
    destruct (Hone Fixture.nodeB eq_refl)
      as (st' & Hrun & _ & _ & _ & Hid & Hpath & _).
    exists st'. split_and!; done.
  - destruct (prompt_step_by_subscription_count 0 Fixture.scenario [Fixture.nodeA; Fixture.nodeB]
                Fixture.scenario ltac:(vm_compute; reflexivity)) as [_ Htwo].
    destruct (Htwo ltac:(simpl; lia)) as (step & Hrun & Hshould).
    exists step. split; [by rewrite Hrun|].
    destruct (shouldPrompt step Fixture.scenario) eqn:Hprompt; [done|].
    apply Hshould in Hprompt as (id & Hid & _). vm_compute in Hid. discriminate.
Defined.

(** The account is logged out and nothing is loaded: the materialized list
    is empty and the prompt step is returned. *)
Lemma no_subscription_gives_prompt_step_witness :
  (ensureSubscriptionTreeItems 0 Fixture.loggedOut).1 = Resolved [] ∧
  (getSubscriptionPromptStep 0 Fixture.loggedOut).1 = Resolved (Some {| step_context := 0 |}) ∧
  (getSubscriptionPromptStep 0 Fixture.scenario).1 = Resolved (Some {| step_context := 0 |}).
Proof.
  assert (ensureSubscriptionTreeItems 0 Fixture.loggedOut =
          (Resolved [], (ensureSubscriptionTreeItems 0 Fixture.loggedOut).2)) as Hensure
    by (vm_compute; reflexivity).
  destruct (no_subscription_gives_prompt_step 0 Fixture.loggedOut _ Hensure)
    as (_ & Hrun & Hsame).
  split_and!; [by rewrite Hensure | by rewrite Hrun |].
  rewrite (Hsame Fixture.scenario [Fixture.nodeA; Fixture.nodeB] Fixture.scenario);
    [done | by vm_compute | simpl; lia].
Defined.

Lemma provider_absent_raises_UserCancelled_witness :
  (ensureSubscriptionTreeItems 0 Fixture.notInstalled).1 = Rejected UserCancelledError ∧
  (ensureSubscriptionTreeItems 0 Fixture.loggedOut).1 ≠ Rejected UserCancelledError.
Proof.
  split.
  - destruct (provider_absent_raises_UserCancelled 0 Fixture.notInstalled) as [Habsent _].
    destruct (Habsent ltac:(vm_compute; reflexivity)
                (mkPromise 1 (Resolved Fixture.viewInMarketplace)) (world Fixture.notInstalled)
                ltac:(vm_compute; reflexivity)) as [Hpick _].
    destruct (Hpick Fixture.viewInMarketplace eq_refl ltac:(intros _; exact I)) as [Hr _].
    exact Hr.
  - destruct (provider_absent_raises_UserCancelled 0 Fixture.loggedOut) as [_ Hpresent].
    apply (Hpresent Fixture.theAccount ltac:(vm_compute; reflexivity)).
    + intros w. simpl. discriminate.
    + intros root' w. simpl. unfold Fixture.build.
      case_bool_decide; simpl; discriminate.
Defined.

(** C7 as it is stated fails: [UserCancelledError] is not raised only when
    the user declines.  Here the user picks "View in Marketplace", the
    extension's page is opened, and the error is raised all the same. *)
Lemma UserCancelled_raised_after_accepting :
  ¬ ((ensureSubscriptionTreeItems 0 Fixture.notInstalled).1 = Rejected UserCancelledError →
     settled (ui_showWarningMessage requiresAzureAccountMessage [viewInMarketplaceItem]
                (world Fixture.notInstalled)).1
       ≠ Resolved viewInMarketplaceItem).
Proof.
  intros Hclaim. apply Hclaim; by vm_compute.
Qed.

(** ** Child loading, status by status *)

Section ChildLoading.

Context {World : Type} `{!Host World}.
Implicit Types (st : St World).

(** X1. Logged out, the children are exactly two placeholders, in this
    order: "Sign in to Azure..." with the sign-in command and "Create a
    Free Azure Account..." with the create-account command, each with its
    command as id and both offered by the tree item picker.  Nothing is
    called, and the cached subscription nodes are dropped. *)
Theorem logged_out_gives_sign_in_and_create_account cc context st azureAccount
    (Htask : settled (_azureAccountTask (this st)) = Resolved (Some azureAccount))
    (Hstatus : account_status azureAccount (world st) = LoggedOut) :
  ∃ st',
    loadMoreChildrenImpl cc context st =
      (Resolved
         [Generic {| label := signInLabel;
                     commandId := Some signInCommandId;
                     contextValue := "azureCommand";
                     generic_id := Some signInCommandId;
                     iconPath := None;
                     includeInTreeItemPicker := Some true;
                     commandArgs := None |};
          Generic {| label := createAccountLabel;
                     commandId := Some createAccountCommandId;
                     contextValue := "azureCommand";
                     generic_id := Some createAccountCommandId;
                     iconPath := None;
                     includeInTreeItemPicker := Some true;
                     commandArgs := None |}], st') ∧
    _subscriptionTreeItems (this st') = Some [] ∧
    world st' = world st ∧
    trace st' = trace st.
Proof.
  unfold loadMoreChildrenImpl, bind, gets, await, setTelemetry, setSubscriptionTreeItems,
    modify, callHost. simpl.
  rewrite Htask, Hstatus. simpl. by eexists.
Qed.

(** X2. While the sign-in is under way the children are exactly one
    placeholder, "Waiting for Azure sign-in...", with the loading icon and
    the sign-in command; it differs from the placeholder of the
    initializing account by its label only.  Nothing is called, and the
    cached subscription nodes are dropped. *)
Theorem logging_in_gives_waiting cc context st azureAccount
    (Htask : settled (_azureAccountTask (this st)) = Resolved (Some azureAccount))
    (Hstatus : account_status azureAccount (world st) = LoggingIn) :
  ∃ st',
    loadMoreChildrenImpl cc context st =
      (Resolved
         [Generic {| label := localize "signingIn" "Waiting for Azure sign-in...";
                     commandId := Some signInCommandId;
                     contextValue := "azureCommand";
                     generic_id := Some signInCommandId;
                     iconPath := Some loadingIconPath;
                     includeInTreeItemPicker := None;
                     commandArgs := None |}], st') ∧
    _subscriptionTreeItems (this st') = Some [] ∧
    world st' = world st ∧
    trace st' = trace st.
Proof.
  unfold loadMoreChildrenImpl, bind, gets, await, setTelemetry, setSubscriptionTreeItems,
    modify, callHost. simpl.
  rewrite Htask, Hstatus. simpl. by eexists.
Qed.

(** What [loadMoreChildrenImpl] does to the state, whatever the branch and
    the outcome. *)
Lemma loadMoreChildrenImpl_effects cc context st :
  let st' := (loadMoreChildrenImpl cc context st).2 in
  _azureAccountTask (this st') = _azureAccountTask (this st) ∧
  disposables (this st') = disposables (this st) ∧
  listeners st' = listeners st ∧
  (∃ calls, trace st' = trace st ++ calls) ∧
  (∀ other, other ≠ context → contexts st' other = contexts st other) ∧
  (contexts st' context = contexts st context ∨
   ∃ value, contexts st' context
            = setTelemetryProperty "accountStatus" value (contexts st context)) ∧
  (∀ azureAccount,
     settled (_azureAccountTask (this st)) = Resolved azureAccount →
     contexts st' context =
       setTelemetryProperty "accountStatus"
         (match azureAccount with
          | Some a => statusString (account_status a (world st))
          | None => "notInstalled"
          end) (contexts st context)).
Proof.
  unfold loadMoreChildrenImpl, bind, gets, await, setTelemetry, setSubscriptionTreeItems,
    modify, callHost. simpl.
  assert (∀ (f : IActionContext → IActionContext) other,
            other ≠ context →
            (if bool_decide (other = context) then f (contexts st other) else contexts st other)
            = contexts st other) as Hother
    by (intros f other Hne; by rewrite bool_decide_eq_false_2).
  assert (∀ (f : IActionContext → IActionContext),
            (if bool_decide (context = context) then f (contexts st context)
             else contexts st context) = f (contexts st context)) as Hsame
    by (intros f; by rewrite bool_decide_eq_true_2).
  assert (∀ calls, ∃ calls', trace st ++ calls = trace st ++ calls') as Hext by by eexists.
  assert (∃ calls', trace st = trace st ++ calls') as Hnil by (exists []; by rewrite app_nil_r).
  destruct (settled (_azureAccountTask (this st))) as [[azureAccount|]|e]; simpl.
  - destruct (account_status azureAccount (world st)) eqn:Hstatus; simpl.
    1, 2, 4:
      (split_and!; [done | done | done | done | by apply Hother | right; eexists; by apply Hsame |
                    intros ? [= <-]; by rewrite Hstatus, Hsame]).
    destruct (account_waitForFilters azureAccount (world st)) as [ready w1]. simpl.
    destruct (settled ready) as [b|e]; simpl.
    + destruct (bool_decide (length (account_filters azureAccount w1) = 0)); simpl.
      * split_and!; [done | done | done | by apply Hext | by apply Hother |
                     right; eexists; by apply Hsame |
                     intros ? [= <-]; by rewrite Hstatus, Hsame].
      * match goal with |- context [mapM (reconcileFilter ?prev) ?fs ?s] =>
          destruct (mapM_reconcileFilter prev fs s) as (promises & calls & w2 & Hrun & _ & _)
        end.
        rewrite Hrun. simpl.
        destruct (settled (PromiseNS.all promises)); simpl;
          (split_and!; [done | done | done | rewrite <- app_assoc; by apply Hext |
                        by apply Hother | right; eexists; by apply Hsame |
                        intros ? [= <-]; by rewrite Hstatus, Hsame]).
    + split_and!; [done | done | done | by apply Hext | by apply Hother |
                   right; eexists; by apply Hsame |
                   intros ? [= <-]; by rewrite Hstatus, Hsame].
  - split_and!; [done | done | done | done | by apply Hother |
                 right; eexists; by apply Hsame | intros ? [= <-]; by rewrite Hsame].
  - split_and!; [done | done | done | done | done | by left | done].
Qed.

(** X3. Loading the children never touches what the constructor set up:
    the account task, the disposables and the listeners registered on the
    account stay as they are, in every branch and whether the loading
    resolves or rejects; the trace of calls only grows; and of the context
    objects only the one passed is written to, and of that one only the
    [accountStatus] telemetry property. *)
Theorem loading_children_keeps_the_setup cc context st :
  let st' := (loadMoreChildrenImpl cc context st).2 in
  _azureAccountTask (this st') = _azureAccountTask (this st) ∧
  disposables (this st') = disposables (this st) ∧
  listeners st' = listeners st ∧
  (∃ calls, trace st' = trace st ++ calls) ∧
  (∀ other, other ≠ context → contexts st' other = contexts st other) ∧
  (∀ key, key ≠ "accountStatus" →
     telemetry_properties (contexts st' context) !! key
     = telemetry_properties (contexts st context) !! key) ∧
  context_credentials (contexts st' context) = context_credentials (contexts st context) ∧
  context_subscriptionDisplayName (contexts st' context)
    = context_subscriptionDisplayName (contexts st context) ∧
  context_subscriptionId (contexts st' context) = context_subscriptionId (contexts st context) ∧
  context_subscriptionPath (contexts st' context)
    = context_subscriptionPath (contexts st context) ∧
  context_tenantId (contexts st' context) = context_tenantId (contexts st context) ∧
  context_userId (contexts st' context) = context_userId (contexts st context) ∧
  context_environment (contexts st' context) = context_environment (contexts st context).
Proof.
  destruct (loadMoreChildrenImpl_effects cc context st)
    as (Htask & Hdisp & Hlist & Htrace & Hother & Hcontext & _).
  simpl. split_and!; try done.
  all: destruct Hcontext as [-> | [value ->]]; try done.
  intros key Hkey. simpl. by rewrite lookup_insert_ne.
Qed.

(** X4. Once the account task has resolved, loading the children records
    the account status in the telemetry of the context it is given:
    [notInstalled] without an account, the status of the account
    otherwise; and it does so whether the loading then resolves or
    rejects. *)
Theorem loading_children_records_account_status cc context st azureAccount
    (Htask : settled (_azureAccountTask (this st)) = Resolved azureAccount) :
  telemetry_properties (contexts (loadMoreChildrenImpl cc context st).2 context)
    !! "accountStatus"
  = Some (match azureAccount with
          | Some a => statusString (account_status a (world st))
          | None => "notInstalled"
          end).
Proof.
  destruct (loadMoreChildrenImpl_effects cc context st) as (_ & _ & _ & _ & _ & _ & Hstatus).
  simpl in Hstatus. rewrite (Hstatus azureAccount Htask). simpl. apply lookup_insert_eq.
Qed.

(** X5. When the wait for the filters rejects, the loading rejects with
    that error: the filters are not read and the factory is not called,
    and the cache, emptied before the wait, stays empty. *)
Theorem failed_wait_fails_the_loading cc context st azureAccount ready w1 e
    (Htask : settled (_azureAccountTask (this st)) = Resolved (Some azureAccount))
    (Hstatus : account_status azureAccount (world st) = LoggedIn)
    (Hwait : account_waitForFilters azureAccount (world st) = (ready, w1))
    (Hready : settled ready = Rejected e) :
  ∃ st',
    loadMoreChildrenImpl cc context st = (Rejected e, st') ∧
    _subscriptionTreeItems (this st') = Some [] ∧
    world st' = w1 ∧
    trace st' = trace st ++ [CallWaitForFilters azureAccount].
Proof.
  unfold loadMoreChildrenImpl, bind, gets, await, setTelemetry, setSubscriptionTreeItems,
    modify, callHost. simpl.
  rewrite Htask, Hstatus. simpl. rewrite Hwait, Hready. simpl. by eexists.
Qed.

End ChildLoading.


(** ** More on the reconciliation pass *)

Section PassCoverage.

Context {World : Type} `{!Host World}.
Implicit Types (st : St World) (previous : list SubscriptionTreeItemBase)
  (filters : list AzureResourceFilter) (calls : list HostCall).

(** The pass, from the run of its callbacks. *)
Lemma loadMoreChildrenImpl_pass_run cc context st azureAccount ready w1 b promises st2 :
  settled (_azureAccountTask (this st)) = Resolved (Some azureAccount) →
  account_status azureAccount (world st) = LoggedIn →
  account_waitForFilters azureAccount (world st) = (ready, w1) →
  settled ready = Resolved b →
  account_filters azureAccount w1 ≠ [] →
  mapM (reconcileFilter (default [] (_subscriptionTreeItems (this st))))
    (account_filters azureAccount w1) (passState context azureAccount w1 st)
    = (Resolved promises, st2) →
  ∃ st',
    loadMoreChildrenImpl cc context st =
      (match settled (PromiseNS.all promises) with
       | Resolved items => Resolved (SubscriptionItem <$> items)
       | Rejected e => Rejected e
       end, st') ∧
    _subscriptionTreeItems (this st') =
      match settled (PromiseNS.all promises) with
      | Resolved items => Some items
      | Rejected _ => _subscriptionTreeItems (this st2)
      end ∧
    world st' = world st2 ∧
    trace st' = trace st2.
Proof.
  intros Htask Hstatus Hwait Hready Hne Hrun.
  unfold loadMoreChildrenImpl, bind, gets, await, setTelemetry, setSubscriptionTreeItems,
    modify, callHost. simpl.
  rewrite Htask, Hstatus. simpl. rewrite Hwait, Hready. simpl.
  rewrite bool_decide_eq_false_2 by (by destruct (account_filters azureAccount w1)).
  assert (default [] (_subscriptionTreeItems (this st)) =
          match _subscriptionTreeItems (this st) with Some l => l | None => [] end) as Hprev
    by by destruct (_subscriptionTreeItems (this st)).
  rewrite Hprev in Hrun. unfold passState in Hrun. rewrite Hrun.
  destruct (settled (PromiseNS.all promises)); by eexists.
Qed.

(** The callbacks of filters that all have a node in the previous list:
    nothing is called and the state is left as it is. *)
Lemma mapM_reconcileFilter_matched previous filters nodes st :
  Forall2 (λ filter node, findExisting previous filter = Some node) filters nodes →
  mapM (reconcileFilter previous) filters st = (Resolved (PromiseNS.resolve <$> nodes), st).
Proof.
  induction 1 as [|filter node filters nodes Hfind _ IH]; simpl; [done|].
  assert (reconcileFilter previous filter st = (Resolved (PromiseNS.resolve node), st)) as Hone
    by (unfold reconcileFilter; by rewrite Hfind).
  unfold bind at 1. rewrite Hone. unfold bind at 1. by rewrite IH.
Qed.

Lemma all_resolve (nodes : list SubscriptionTreeItemBase) :
  settled (PromiseNS.all (PromiseNS.resolve <$> nodes)) = Resolved nodes.
Proof.
  apply all_Resolved. induction nodes; simpl; by constructor.
Qed.

(** In a list of nodes with distinct ids, [find] gives the node that has
    the id. *)
Lemma findExisting_NoDup previous filter node :
  NoDup (treeItem_id <$> previous) →
  node ∈ previous →
  treeItem_id node = subscription_id (subscription filter) →
  findExisting previous filter = Some node.
Proof.
  unfold findExisting. induction previous as [|ti previous IH]; simpl.
  { by intros _ ?%not_elem_of_nil. }
  intros [Hfresh Hnodup]%NoDup_cons [->|Hin]%elem_of_cons Hid.
  - by rewrite bool_decide_eq_true_2.
  - rewrite bool_decide_eq_false_2; [by apply IH|].
    intros Heq. apply Hfresh. rewrite Heq, <- Hid. by apply list_elem_of_fmap_2.
Qed.

(** X6. A pass in which every filter's id is the id of a node of the
    previous list calls the factory for none and cannot fail, whatever
    properties the filters miss: it returns, filter by filter, the nodes
    [find] gives, all of them nodes of the previous list, after the one
    wait for the filters. *)
Theorem matched_filters_call_no_factory cc context st azureAccount ready w1 b
    (Htask : settled (_azureAccountTask (this st)) = Resolved (Some azureAccount))
    (Hstatus : account_status azureAccount (world st) = LoggedIn)
    (Hwait : account_waitForFilters azureAccount (world st) = (ready, w1))
    (Hready : settled ready = Resolved b)
    (Hfilters : account_filters azureAccount w1 ≠ [])
    (Hmatched : ∀ filter, filter ∈ account_filters azureAccount w1 →
                  ∃ ti, ti ∈ default [] (_subscriptionTreeItems (this st)) ∧
                        treeItem_id ti = subscription_id (subscription filter)) :
  ∃ nodes st',
    loadMoreChildrenImpl cc context st = (Resolved (SubscriptionItem <$> nodes), st') ∧
    _subscriptionTreeItems (this st') = Some nodes ∧
    Forall2 (λ filter node,
               findExisting (default [] (_subscriptionTreeItems (this st))) filter = Some node)
      (account_filters azureAccount w1) nodes ∧
    Forall (λ node, node ∈ default [] (_subscriptionTreeItems (this st))) nodes ∧
    world st' = w1 ∧
    trace st' = trace st ++ [CallWaitForFilters azureAccount].
Proof.
  set (previous := default [] (_subscriptionTreeItems (this st))) in *.
  assert (∃ nodes, Forall2 (λ filter node, findExisting previous filter = Some node)
                     (account_filters azureAccount w1) nodes) as [nodes Hnodes].
  { clear Hfilters. induction (account_filters azureAccount w1) as [|filter filters IH].
    { exists []. constructor. }
    destruct IH as [nodes Hnodes].
    { intros f Hf. apply Hmatched. by apply list_elem_of_further. }
    destruct (findExisting previous filter) as [node|] eqn:Hfind.
    - exists (node :: nodes). by constructor.
    - destruct (Hmatched filter) as (ti & Hin & Hid); [apply list_elem_of_here|].
      rewrite findExisting_None in Hfind. by destruct (Hfind ti Hin). }
  destruct (loadMoreChildrenImpl_pass_run cc context st azureAccount ready w1 b
              (PromiseNS.resolve <$> nodes) (passState context azureAccount w1 st))
    as (st' & Hrun & Hcache & Hworld & Htrace); try done.
  { by apply mapM_reconcileFilter_matched. }
  rewrite all_resolve in Hrun, Hcache.
  exists nodes, st'. split_and!; try done.
  apply Forall_forall. intros node [i Hi]%list_elem_of_lookup.
  destruct (Forall2_lookup_r _ _ _ _ _ Hnodes Hi) as (filter & _ & Hfind).
  by apply findExisting_Some in Hfind as [? _].
Qed.

(** A pass over the filters of the cached nodes themselves. *)
Lemma loadMoreChildrenImpl_on_own_nodes cc context st azureAccount ready w1 b previous :
  settled (_azureAccountTask (this st)) = Resolved (Some azureAccount) →
  account_status azureAccount (world st) = LoggedIn →
  account_waitForFilters azureAccount (world st) = (ready, w1) →
  settled ready = Resolved b →
  account_filters azureAccount w1 ≠ [] →
  _subscriptionTreeItems (this st) = Some previous →
  Forall2 (λ filter node, treeItem_id node = subscription_id (subscription filter))
    (account_filters azureAccount w1) previous →
  NoDup (treeItem_id <$> previous) →
  ∃ st',
    loadMoreChildrenImpl cc context st = (Resolved (SubscriptionItem <$> previous), st') ∧
    _subscriptionTreeItems (this st') = Some previous ∧
    trace st' = trace st ++ [CallWaitForFilters azureAccount].
Proof.
  intros Htask Hstatus Hwait Hready Hfilters Hcache Hsame Hdistinct.
  assert (Forall2 (λ filter node, findExisting previous filter = Some node)
            (account_filters azureAccount w1) previous) as Hfind.
  { apply Forall2_same_length_lookup. split; [by eapply Forall2_length|].
    intros i filter node Hf Hn. apply findExisting_NoDup; [done | |].
    - by eapply list_elem_of_lookup_2.
    - by eapply (Forall2_lookup_lr _ _ _ _ _ _ Hsame). }
  destruct (loadMoreChildrenImpl_pass_run cc context st azureAccount ready w1 b
              (PromiseNS.resolve <$> previous) (passState context azureAccount w1 st))
    as (st' & Hrun & Hcache' & Hworld & Htrace); try done.
  { rewrite Hcache. simpl. by apply mapM_reconcileFilter_matched. }
  rewrite all_resolve in Hrun, Hcache'. by exists st'.
Qed.

(** X7. Reconciliation is stable: when the filters are, one for one and
    in order, those of the cached nodes, and the cached nodes have distinct
    ids, the pass returns the cached list itself, the same instances in
    the same order, and calls no factory. *)
Theorem unchanged_filters_keep_the_nodes cc context st azureAccount ready w1 b previous
    (Htask : settled (_azureAccountTask (this st)) = Resolved (Some azureAccount))
    (Hstatus : account_status azureAccount (world st) = LoggedIn)
    (Hwait : account_waitForFilters azureAccount (world st) = (ready, w1))
    (Hready : settled ready = Resolved b)
    (Hfilters : account_filters azureAccount w1 ≠ [])
    (Hcache : _subscriptionTreeItems (this st) = Some previous)
    (Hsame : Forall2 (λ filter node,
                        treeItem_id node = subscription_id (subscription filter))
               (account_filters azureAccount w1) previous)
    (Hdistinct : NoDup (treeItem_id <$> previous)) :
  ∃ st',
    loadMoreChildrenImpl cc context st = (Resolved (SubscriptionItem <$> previous), st') ∧
    _subscriptionTreeItems (this st') = Some previous ∧
    trace st' = trace st ++ [CallWaitForFilters azureAccount].
Proof. by eapply loadMoreChildrenImpl_on_own_nodes. Qed.

(** The factory calls of the callbacks: one for each filter that matches
    no node and misses no property, in the order of the filters. *)
Lemma mapM_reconcileFilter_calls previous filters st :
  ∃ promises calls w,
    mapM (reconcileFilter previous) filters st =
      (Resolved promises, mkSt (this st) (contexts st) (listeners st) w (trace st ++ calls)) ∧
    createdRoots calls = pendingRoots previous filters ∧
    length calls = length (pendingRoots previous filters).
Proof.
  revert st. induction filters as [|filter filters IH]; intros st; simpl.
  { exists [], [], (world st). rewrite app_nil_r. by destruct st. }
  unfold pendingRoots. simpl. fold (pendingRoots previous filters).
  destruct (findExisting previous filter) as [existing|] eqn:Hfind; simpl.
  - assert (reconcileFilter previous filter st = (Resolved (PromiseNS.resolve existing), st))
      as Hone by (unfold reconcileFilter; by rewrite Hfind).
    destruct (IH st) as (promises & calls & w & Hrun & Hroots & Hlen).
    unfold bind at 1. rewrite Hone. unfold bind at 1. rewrite Hrun. simpl.
    by eexists _, calls, w.
  - destruct (subscriptionContext filter) as [root'|e] eqn:Hctx; simpl.
    + destruct (createSubscriptionTreeItem root' (world st)) as [p w1] eqn:Hcall.
      assert (reconcileFilter previous filter st =
              (Resolved p, mkSt (this st) (contexts st) (listeners st) w1
                             (trace st ++ [CallCreateSubscriptionTreeItem root' p]))) as Hone
        by (unfold reconcileFilter, callHost; by rewrite Hfind, Hctx, Hcall).
      destruct (IH (mkSt (this st) (contexts st) (listeners st) w1
                      (trace st ++ [CallCreateSubscriptionTreeItem root' p])))
        as (promises & calls & w & Hrun & Hroots & Hlen).
      unfold bind at 1. rewrite Hone. unfold bind at 1. rewrite Hrun. simpl in *.
      exists (p :: promises), (CallCreateSubscriptionTreeItem root' p :: calls), w.
      rewrite <- app_assoc. simpl. split_and!; [done | by rewrite Hroots | by rewrite Hlen].
    + assert (reconcileFilter previous filter st = (Resolved (PromiseNS.reject e), st))
        as Hone by (unfold reconcileFilter; by rewrite Hfind, Hctx).
      destruct (IH st) as (promises & calls & w & Hrun & Hroots & Hlen).
      unfold bind at 1. rewrite Hone. unfold bind at 1. rewrite Hrun. simpl.
      by eexists _, calls, w.
Qed.

(** X8. In a pass the factory is called exactly once for each filter that
    matches no node of the previous list and misses no property, on the
    filter's resolved context and in the order of the filters; and so it
    is whether the pass resolves or rejects: a call that fails does not
    keep the calls for the later filters from being made. *)
Theorem factory_called_once_per_new_filter cc context st azureAccount ready w1 b
    (Htask : settled (_azureAccountTask (this st)) = Resolved (Some azureAccount))
    (Hstatus : account_status azureAccount (world st) = LoggedIn)
    (Hwait : account_waitForFilters azureAccount (world st) = (ready, w1))
    (Hready : settled ready = Resolved b)
    (Hfilters : account_filters azureAccount w1 ≠ []) :
  ∃ calls,
    trace (loadMoreChildrenImpl cc context st).2
      = trace st ++ CallWaitForFilters azureAccount :: calls ∧
    createdRoots calls
      = pendingRoots (default [] (_subscriptionTreeItems (this st)))
          (account_filters azureAccount w1) ∧
    length calls
      = length (pendingRoots (default [] (_subscriptionTreeItems (this st)))
                  (account_filters azureAccount w1)).
Proof.
  destruct (mapM_reconcileFilter_calls (default [] (_subscriptionTreeItems (this st)))
              (account_filters azureAccount w1) (passState context azureAccount w1 st))
    as (promises & calls & w & Hrun & Hroots & Hlen).
  destruct (loadMoreChildrenImpl_pass_run cc context st azureAccount ready w1 b promises _
              Htask Hstatus Hwait Hready Hfilters Hrun)
    as (st' & Hload & _ & _ & Htrace).
  exists calls. rewrite Hload. simpl. rewrite Htrace. simpl.
  by rewrite <- app_assoc.
Qed.

(** X9. A filter that matches no node of the previous list and has no
    display name, no subscription id or no id fails the pass: the pass
    rejects and leaves the cache empty.  The properties are looked at in
    that order, and the first one missing is the one the error names. *)
Theorem missing_property_fails_the_pass cc context st azureAccount ready w1 b filter
    (Htask : settled (_azureAccountTask (this st)) = Resolved (Some azureAccount))
    (Hstatus : account_status azureAccount (world st) = LoggedIn)
    (Hwait : account_waitForFilters azureAccount (world st) = (ready, w1))
    (Hready : settled ready = Resolved b)
    (Hfilter : filter ∈ account_filters azureAccount w1)
    (Hnew : findExisting (default [] (_subscriptionTreeItems (this st))) filter = None)
    (Hmissing : subscription_displayName (subscription filter) = None ∨
                subscription_subscriptionId (subscription filter) = None ∨
                subscription_id (subscription filter) = None) :
  (∃ e, (loadMoreChildrenImpl cc context st).1 = Rejected e) ∧
  _subscriptionTreeItems (this (loadMoreChildrenImpl cc context st).2) = Some [] ∧
  subscriptionContext filter =
    Rejected (Error (nullValueMessage
      (match subscription_displayName (subscription filter),
             subscription_subscriptionId (subscription filter) with
       | None, _ => "displayName"
       | Some _, None => "subscriptionId"
       | Some _, Some _ => "id"
       end))).
Proof.
  assert (subscriptionContext filter =
    Rejected (Error (nullValueMessage
      (match subscription_displayName (subscription filter),
             subscription_subscriptionId (subscription filter) with
       | None, _ => "displayName"
       | Some _, None => "subscriptionId"
       | Some _, Some _ => "id"
       end)))) as Hctx.
  { unfold subscriptionContext, nonNullProp, nonNullValue.
    destruct (subscription_displayName _); [|done].
    destruct (subscription_subscriptionId _); [|done].
    destruct (subscription_id _); [|done].
    by destruct Hmissing as [?|[?|?]]. }
  destruct (loadMoreChildrenImpl_pass cc context st azureAccount ready w1 b)
    as (promises & calls & st1 & Hd & Hcalls & Hrun & Hcache & Htask' & Htrace); try done.
  { intros Hnil. rewrite Hnil in Hfilter. by apply not_elem_of_nil in Hfilter. }
  apply list_elem_of_lookup in Hfilter as [i Hi].
  destruct (Forall2_lookup_l _ _ _ _ _ Hd Hi) as (p & Hp & Hdisp).
  unfold dispatched in Hdisp. rewrite Hnew, Hctx in Hdisp. subst p.
  destruct (all_rejects promises _ _ (list_elem_of_lookup_2 _ _ _ Hp) eq_refl) as [e' Hall].
  rewrite Hrun. simpl. rewrite Hall in Hcache |- *. split_and!; [by exists e' | done | done].
Qed.

End PassCoverage.

(** ** Acquiring the account, and disposing of the node *)

Section Acquisition.

Context {World : Type} `{!Host World}.
Implicit Types (st : St World).

(** X10. A test account given to the constructor is the account of the
    node: the extension host is not asked for the extension and nothing is
    activated.  The two listeners are registered on the test account and
    kept as disposables, and the one call made is the setting of the
    host's [isAzureAccountInstalled] context, whose failure is the only
    way the account task can fail. *)
Theorem test_account_bypasses_the_extension azureAccount heap w :
  let st := constructor (Some azureAccount) heap w in
  listeners st = registrations azureAccount ∧
  disposables (this st) = registrations azureAccount ∧
  _subscriptionTreeItems (this st) = None ∧
  trace st = [setInstalledFlag] ∧
  settled (_azureAccountTask (this st)) =
    match settled (commands_executeCommand "setContext"
                     [VString "isAzureAccountInstalled"; VBool true] w).1 with
    | Resolved _ => Resolved (Some azureAccount)
    | Rejected e => Rejected e
    end.
Proof.
  unfold constructor, loadAzureAccount, bind, gets, await, subscribe, pushDisposable,
    modify, callHost, ret. simpl.
  destruct (commands_executeCommand _ _ w) as [p w']. simpl.
  by destruct (settled p).
Qed.


(** X12. When the activation of the extension rejects, the account task
    rejects with that error and the constructor stops there: no listener
    is registered, no disposable is kept and the host's context is not
    set. *)
Theorem failed_activation_fails_the_task heap w extension activated w1 e
    (Hfound : extensions_getExtension azureAccountExtensionId w = Some extension)
    (Hdormant : isActive extension = false)
    (Hactivate : extension_activate extension w = (activated, w1))
    (Hfail : settled activated = Rejected e) :
  let st := constructor None heap w in
  settled (_azureAccountTask (this st)) = Rejected e ∧
  listeners st = [] ∧
  disposables (this st) = [] ∧
  _subscriptionTreeItems (this st) = None ∧
  trace st = [CallActivate extension].
Proof.
  unfold constructor, loadAzureAccount, bind, gets, await, subscribe, pushDisposable,
    modify, callHost, ret. simpl. rewrite Hfound. simpl. rewrite Hdormant. simpl.
  rewrite Hactivate. simpl. by rewrite Hfail.
Qed.

(** X13. When the account task has rejected, every method that awaits it
    rejects with the same error and changes nothing: the loading of the
    children, the resolver and the prompt step alike. *)
Theorem rejected_task_fails_every_method cc context st e
    (Htask : settled (_azureAccountTask (this st)) = Rejected e) :
  loadMoreChildrenImpl cc context st = (Rejected e, st) ∧
  ensureSubscriptionTreeItems context st = (Rejected e, st) ∧
  getSubscriptionPromptStep context st = (Rejected e, st).
Proof.
  assert (ensureSubscriptionTreeItems context st = (Rejected e, st)) as Hensure.
  { unfold ensureSubscriptionTreeItems, bind, gets, await. simpl. by rewrite Htask. }
  split_and!; [| done |].
  - unfold loadMoreChildrenImpl, bind, gets, await. simpl. by rewrite Htask.
  - unfold getSubscriptionPromptStep, bind at 1. by rewrite Hensure.
Qed.

Lemma constructor_registrations testAccount heap w :
  let st := constructor testAccount heap w in
  disposables (this st) = listeners st ∧
  (listeners st = [] ∨ ∃ azureAccount, listeners st = registrations azureAccount) ∧
  (setInstalledFlag ∈ trace st ↔ listeners st ≠ []) ∧
  _subscriptionTreeItems (this st) = None.
Proof.
  assert (∀ calls : list HostCall, setInstalledFlag ∈ calls ++ [setInstalledFlag]) as Hin.
  { intros calls. apply elem_of_app. right. apply list_elem_of_here. }
  unfold constructor, loadAzureAccount, bind, gets, await, subscribe, pushDisposable,
    modify, callHost, ret. simpl.
  destruct testAccount as [a|]; simpl.
  { destruct (commands_executeCommand _ _ w) as [p w']. simpl.
    destruct (settled p); simpl;
      (split_and!; [done | right; by eexists | split; [done | intros _; apply (Hin [])] | done]). }
  destruct (extensions_getExtension azureAccountExtensionId w) as [extension|]; simpl.
  2: { split_and!; [done | by left | split; [by intros ?%not_elem_of_nil | done] | done]. }
  destruct (isActive extension); simpl.
  { destruct (commands_executeCommand _ _ w) as [p w']. simpl.
    destruct (settled p); simpl;
      (split_and!; [done | right; by eexists | split; [done | intros _; apply (Hin [])] | done]). }
  destruct (extension_activate extension w) as [q w0]. simpl.
  destruct (settled q); simpl.
  - destruct (commands_executeCommand _ _ w0) as [p w']. simpl.
    destruct (settled p); simpl;
      (split_and!; [done | right; by eexists |
                    split; [done | intros _; apply (Hin [CallActivate extension])] | done]).
  - split_and!; [done | by left | | done].
    split; [|done]. intros [[=]|?%not_elem_of_nil]%elem_of_cons. done.
Qed.

(** X14. Whatever the constructor meets, the disposables it keeps are
    exactly the listeners it registered: none, or the two on the account;
    and it tries to set the host's [isAzureAccountInstalled] context
    exactly when it registered them. *)
Theorem constructor_keeps_every_registration testAccount heap w :
  let st := constructor testAccount heap w in
  disposables (this st) = listeners st ∧
  (listeners st = [] ∨ ∃ azureAccount, listeners st = registrations azureAccount) ∧
  (setInstalledFlag ∈ trace st ↔ listeners st ≠ []) ∧
  _subscriptionTreeItems (this st) = None.
Proof. apply constructor_registrations. Qed.

Lemma removeListener_all (ls : list Disposable) :
  foldl (λ ls' d, removeListener d ls') ls ls = [].
Proof.
  induction ls as [|d ls IH]; simpl; [done|].
  by rewrite bool_decide_eq_true_2.
Qed.


End Acquisition.

(** ** More on the resolver and the prompt step *)

Section ResolverCoverage.

Context {World : Type} `{!Host World}.
Implicit Types (st : St World).

(** X16. The prompt of the step shows the tree item picker for
    subscription nodes.  When a node is picked, the properties of its root
    are written into the context the step holds, and into no other; from
    then on the step need not prompt again, if the root has a subscription
    id.  When the picker rejects, the prompt rejects with its error and no
    context is written to. *)
Theorem prompt_fills_the_context step st picked w1
    (Hpick : treeDataProvider_showTreeItemPicker SubscriptionTreeItemBase_contextValue (world st)
               = (picked, w1)) :
  (∀ ti, settled picked = Resolved ti →
     ∃ st',
       prompt step st = (Resolved tt, st') ∧
       contexts st' (step_context step)
         = Object_assign (contexts st (step_context step)) (root ti) ∧
       (∀ other, other ≠ step_context step → contexts st' other = contexts st other) ∧
       (subscriptionId (root ti) ≠ "" → shouldPrompt step st' = false) ∧
       this st' = this st ∧
       trace st' = trace st ++
         [CallShowTreeItemPicker SubscriptionTreeItemBase_contextValue (step_context step)]) ∧
  (∀ e, settled picked = Rejected e →
     ∃ st',
       prompt step st = (Rejected e, st') ∧
       contexts st' = contexts st ∧
       this st' = this st).
Proof.
  unfold prompt, bind, callHost, await, modify, with_context. rewrite Hpick. simpl. split.
  - intros ti ->. eexists. split; [reflexivity|]. simpl.
    rewrite (bool_decide_eq_true_2 (step_context step = step_context step) eq_refl).
    split_and!; try done.
    + intros other Hother. by rewrite bool_decide_eq_false_2.
    + intros Hid. unfold shouldPrompt, truthy. simpl.
      rewrite (bool_decide_eq_true_2 (step_context step = step_context step) eq_refl). simpl.
      rewrite negb_involutive. by apply String.eqb_neq.
  - intros e ->. by eexists.
Qed.

(** X17. The resolver materializes the list once: after a call that
    resolved, every further call, with whatever context, hands back the
    same list and leaves the state as it is, so that nothing is loaded or
    called again. *)
Theorem resolver_materializes_once context st subscriptions st1
    (Hensure : ensureSubscriptionTreeItems context st = (Resolved subscriptions, st1)) :
  ∀ context', ensureSubscriptionTreeItems context' st1 = (Resolved subscriptions, st1).
Proof.
  intros context'.
  destruct (settled (_azureAccountTask (this st))) as [[azureAccount|]|e] eqn:Htask.
  - rewrite (ensureSubscriptionTreeItems_present _ _ _ Htask) in Hensure.
    destruct (_subscriptionTreeItems (this st)) as [items|] eqn:Hcache.
    + injection Hensure as <- <-.
      rewrite (ensureSubscriptionTreeItems_present _ _ _ Htask). by rewrite Hcache.
    + destruct (loadMoreChildrenImpl_present true context st azureAccount Htask)
        as (items & Hitems & Htask' & _).
      destruct ((loadMoreChildrenImpl true context st).1) as [out|e]; [|done].
      injection Hensure as <- <-.
      rewrite <- Htask' in Htask.
      rewrite (ensureSubscriptionTreeItems_present _ _ _ Htask). by rewrite Hitems.
  - destruct (ensureSubscriptionTreeItems_absent_rejects context st Htask) as [e He].
    rewrite Hensure in He. discriminate.
  - revert Hensure. unfold ensureSubscriptionTreeItems, bind, gets, await. simpl.
    by rewrite Htask.
Qed.

(** X18. When the loading the resolver forces fails, the resolver fails
    with its error; and since the failed loading left the empty list in
    the cache, the next call of the resolver does not load again: it hands
    back no subscription, and [getSubscriptionPromptStep] a prompt step. *)
Theorem resolver_does_not_retry_a_failed_loading context st azureAccount e
    (Htask : settled (_azureAccountTask (this st)) = Resolved (Some azureAccount))
    (Hcache : _subscriptionTreeItems (this st) = None)
    (Hfail : (loadMoreChildrenImpl true context st).1 = Rejected e) :
  ∃ st1,
    ensureSubscriptionTreeItems context st = (Rejected e, st1) ∧
    ∀ context',
      ensureSubscriptionTreeItems context' st1 = (Resolved [], st1) ∧
      getSubscriptionPromptStep context' st1
        = (Resolved (Some {| step_context := context' |}), st1).
Proof.
  destruct (loadMoreChildrenImpl_present true context st azureAccount Htask)
    as (items & Hitems & Htask' & Hrej).
  destruct (Hrej e Hfail) as [-> _].
  exists (loadMoreChildrenImpl true context st).2. split.
  - rewrite (ensureSubscriptionTreeItems_present _ _ _ Htask). by rewrite Hcache, Hfail.
  - intros context'. rewrite <- Htask' in Htask.
    assert (ensureSubscriptionTreeItems context' (loadMoreChildrenImpl true context st).2
            = (Resolved [], (loadMoreChildrenImpl true context st).2)) as Hensure.
    { rewrite (ensureSubscriptionTreeItems_present _ _ _ Htask). by rewrite Hitems. }
    split; [done|].
    by rewrite (getSubscriptionPromptStep_after _ _ _ _ Hensure).
Qed.


End ResolverCoverage.

(** ** The properties above, on the concrete hosts *)

Lemma logged_out_gives_sign_in_and_create_account_witness :
  ∃ first second,
    (loadMoreChildrenImpl false 0 Fixture.loggedOut).1 = Resolved [Generic first; Generic second] ∧
    label first = "Sign in to Azure..." ∧
    label second = "Create a Free Azure Account...".
Proof.
  destruct (logged_out_gives_sign_in_and_create_account false 0 Fixture.loggedOut
              Fixture.theAccount ltac:(vm_compute; reflexivity) ltac:(vm_compute; reflexivity))
    as (st' & Hrun & _).
  eexists _, _. rewrite Hrun. split_and!; reflexivity.
Defined.

Lemma logging_in_gives_waiting_witness :
  ∃ placeholder,
    (loadMoreChildrenImpl false 0 (Faulty.healthy LoggingIn [])).1
      = Resolved [Generic placeholder] ∧
    label placeholder = "Waiting for Azure sign-in...".
Proof.
  destruct (logging_in_gives_waiting false 0 (Faulty.healthy LoggingIn []) 5
              ltac:(vm_compute; reflexivity) ltac:(vm_compute; reflexivity))
    as (st' & Hrun & _).
  eexists. rewrite Hrun. split; reflexivity.
Defined.

Lemma loading_children_records_account_status_witness :
  telemetry_properties (contexts (loadMoreChildrenImpl false 0 Fixture.notInstalled).2 0)
    !! "accountStatus" = Some "notInstalled" ∧
  telemetry_properties (contexts (loadMoreChildrenImpl false 0 Fixture.failingScenario).2 0)
    !! "accountStatus" = Some "LoggedIn".
Proof.
  split.
  - apply (loading_children_records_account_status false 0 Fixture.notInstalled None).
    vm_compute; reflexivity.
  - rewrite (loading_children_records_account_status false 0 Fixture.failingScenario
               (Some Fixture.theAccount) ltac:(vm_compute; reflexivity)).
    reflexivity.
Defined.

Lemma failed_wait_fails_the_loading_witness :
  ∃ st', loadMoreChildrenImpl false 0 Faulty.waitFails = (Rejected (Error "no filters"), st') ∧
         _subscriptionTreeItems (this st') = Some [].
Proof.
  destruct (failed_wait_fails_the_loading false 0 Faulty.waitFails 5
              (mkPromise 1 (Rejected (Error "no filters"))) (world Faulty.waitFails)
              (Error "no filters")
              ltac:(vm_compute; reflexivity) ltac:(vm_compute; reflexivity)
              ltac:(vm_compute; reflexivity) ltac:(reflexivity))
    as (st' & Hrun & Hcache & _).
  by exists st'.
Defined.

(** The one filter, /sub/2, has its node B in the cache: the pass returns
    B and calls no factory. *)
Lemma matched_filters_call_no_factory_witness :
  ∃ st', loadMoreChildrenImpl false 0 Fixture.oneSubscription
           = (Resolved [SubscriptionItem Fixture.nodeB], st') ∧
         trace st' = trace Fixture.oneSubscription ++ [CallWaitForFilters Fixture.theAccount].
Proof.
  destruct (matched_filters_call_no_factory false 0 Fixture.oneSubscription Fixture.theAccount
              (mkPromise 1 (Resolved true)) (world Fixture.oneSubscription) true
              ltac:(vm_compute; reflexivity) ltac:(vm_compute; reflexivity)
              ltac:(vm_compute; reflexivity) ltac:(vm_compute; reflexivity)
              ltac:(vm_compute; discriminate))
    as (nodes & st' & Hrun & _ & Hfind & _ & _ & Htrace).
  { intros filter Hin. apply list_elem_of_singleton in Hin as ->.
    exists Fixture.nodeB. split; [apply list_elem_of_here | reflexivity]. }
  exists st'. split; [|done]. rewrite Hrun. f_equal. f_equal.
  apply Forall2_cons_inv_l in Hfind as (node & nodes' & Hnode & ->%Forall2_nil_inv_l & ->).
  vm_compute in Hnode. by injection Hnode as <-.
Defined.

Lemma unchanged_filters_keep_the_nodes_witness :
  ∃ st', loadMoreChildrenImpl false 0 Fixture.oneSubscription
           = (Resolved [SubscriptionItem Fixture.nodeB], st') ∧
         _subscriptionTreeItems (this st') = Some [Fixture.nodeB].
Proof.
  destruct (unchanged_filters_keep_the_nodes false 0 Fixture.oneSubscription Fixture.theAccount
              (mkPromise 1 (Resolved true)) (world Fixture.oneSubscription) true [Fixture.nodeB]
              ltac:(vm_compute; reflexivity) ltac:(vm_compute; reflexivity)
              ltac:(vm_compute; reflexivity) ltac:(vm_compute; reflexivity)
              ltac:(vm_compute; discriminate) ltac:(vm_compute; reflexivity))
    as (st' & Hrun & Hcache & _).
  - repeat constructor.
  - repeat constructor. by intros ?%not_elem_of_nil.
  - by exists st'.
Defined.

(** The factory fails on /sub/3; it was called on /sub/3 and on nothing
    else, /sub/2 having its node. *)
Lemma factory_called_once_per_new_filter_witness :
  ∃ calls,
    trace (loadMoreChildrenImpl false 0 Fixture.failingScenario).2
      = trace Fixture.failingScenario ++ CallWaitForFilters Fixture.theAccount :: calls ∧
    createdRoots calls = [Fixture.rootFor "/sub/3"].
Proof.
  destruct (factory_called_once_per_new_filter false 0 Fixture.failingScenario Fixture.theAccount
              (mkPromise 1 (Resolved true)) (world Fixture.failingScenario) true
              ltac:(vm_compute; reflexivity) ltac:(vm_compute; reflexivity)
              ltac:(vm_compute; reflexivity) ltac:(vm_compute; reflexivity)
              ltac:(vm_compute; discriminate))
    as (calls & Htrace & Hroots & _).
  exists calls. split; [done|]. rewrite Hroots. reflexivity.
Defined.

Lemma missing_property_fails_the_pass_witness :
  (∃ e, (loadMoreChildrenImpl false 0 (Faulty.cached [Faulty.namelessFilter])).1 = Rejected e) ∧
  _subscriptionTreeItems
    (this (loadMoreChildrenImpl false 0 (Faulty.cached [Faulty.namelessFilter])).2) = Some [].
Proof.
  destruct (missing_property_fails_the_pass false 0 (Faulty.cached [Faulty.namelessFilter]) 5
              (mkPromise 1 (Resolved true)) (world (Faulty.cached [Faulty.namelessFilter])) true
              Faulty.namelessFilter
              ltac:(vm_compute; reflexivity) ltac:(vm_compute; reflexivity)
              ltac:(vm_compute; reflexivity) ltac:(vm_compute; reflexivity)
              ltac:(vm_compute; apply list_elem_of_here) ltac:(vm_compute; reflexivity)
              ltac:(left; reflexivity))
    as (Hfail & Hcache & _).
  by split.
Defined.


Lemma failed_activation_fails_the_task_witness :
  settled (_azureAccountTask (this Faulty.unactivated)) = Rejected (Error "activation failed") ∧
  listeners Faulty.unactivated = [] ∧
  trace Faulty.unactivated = [CallActivate Faulty.dormant].
Proof.
  destruct (@failed_activation_fails_the_task _ Faulty.faultyHost (λ _, emptyContext)
              (Faulty.worldWith (Rejected (Error "activation failed")) (Resolved tt) LoggedIn
                 (Resolved true) [])
              Faulty.dormant (mkPromise 1 (Rejected (Error "activation failed")))
              (Faulty.worldWith (Rejected (Error "activation failed")) (Resolved tt) LoggedIn
                 (Resolved true) [])
              (Error "activation failed")
              ltac:(vm_compute; reflexivity) ltac:(reflexivity) ltac:(vm_compute; reflexivity)
              ltac:(reflexivity))
    as (Htask & Hlisteners & _ & _ & Htrace).
  split_and!; [exact Htask | exact Hlisteners | exact Htrace].
Defined.

Lemma rejected_task_fails_every_method_witness :
  loadMoreChildrenImpl false 0 Faulty.unactivated
    = (Rejected (Error "activation failed"), Faulty.unactivated) ∧
  getSubscriptionPromptStep 0 Faulty.unactivated
    = (Rejected (Error "activation failed"), Faulty.unactivated).
Proof.
  destruct (rejected_task_fails_every_method false 0 Faulty.unactivated
              (Error "activation failed") ltac:(vm_compute; reflexivity))
    as (Hload & _ & Hstep).
  by split.
Defined.


(** The user picks the node of /sub/2: context 0 gets its subscription id
    and the step need not prompt again. *)
Lemma prompt_fills_the_context_witness :
  ∃ st',
    prompt {| step_context := 0 |} (Faulty.healthy LoggedIn []) = (Resolved tt, st') ∧
    context_subscriptionId (contexts st' 0) = Some "guid" ∧
    shouldPrompt {| step_context := 0 |} st' = false.
Proof.
  assert (treeDataProvider_showTreeItemPicker SubscriptionTreeItemBase_contextValue
            (world (Faulty.healthy LoggedIn []))
          = (mkPromise 1 (Resolved (Fixture.nodeFor 2 "/sub/2")),
             world (Faulty.healthy LoggedIn []))) as Hpick
    by (vm_compute; reflexivity).
  destruct (prompt_fills_the_context {| step_context := 0 |} (Faulty.healthy LoggedIn [])
              _ _ Hpick) as [Hpicked _].
  destruct (Hpicked (Fixture.nodeFor 2 "/sub/2") eq_refl)
    as (st' & Hrun & Hcontext & _ & Hshould & _).
  simpl in Hcontext.
  exists st'. split_and!; [done | by rewrite Hcontext | apply Hshould; discriminate].
Defined.

Lemma resolver_materializes_once_witness :
  ensureSubscriptionTreeItems 1 (ensureSubscriptionTreeItems 0 Fixture.loggedOut).2
    = (Resolved [], (ensureSubscriptionTreeItems 0 Fixture.loggedOut).2).
Proof.
  assert (ensureSubscriptionTreeItems 0 Fixture.loggedOut =
          (Resolved [], (ensureSubscriptionTreeItems 0 Fixture.loggedOut).2)) as Hensure
    by (vm_compute; reflexivity).
  exact (resolver_materializes_once 0 Fixture.loggedOut [] _ Hensure 1).
Defined.

(** The wait for the filters fails while the resolver materializes the
    list; the next call of the resolver hands back no subscription. *)
Lemma resolver_does_not_retry_a_failed_loading_witness :
  ∃ st1,
    ensureSubscriptionTreeItems 0 Faulty.waitFails = (Rejected (Error "no filters"), st1) ∧
    ensureSubscriptionTreeItems 0 st1 = (Resolved [], st1).
Proof.
  destruct (resolver_does_not_retry_a_failed_loading 0 Faulty.waitFails 5 (Error "no filters")
              ltac:(vm_compute; reflexivity) ltac:(vm_compute; reflexivity)
              ltac:(vm_compute; reflexivity))
    as (st1 & Hfail & Hnext).
  exists st1. split; [done|]. apply Hnext.
Defined.


(** ** Passes that follow one another *)

Section Refresh.

Context {World : Type} `{!Host World}.
Implicit Types (st : St World).

(** The resolved context of a filter has the filter's fully-qualified id
    as its subscription path. *)
Lemma subscriptionContext_path filter root' :
  subscriptionContext filter = Resolved root' →
  subscription_id (subscription filter) = Some (subscriptionPath root').
Proof.
  unfold subscriptionContext, nonNullProp, nonNullValue.
  destruct (subscription_displayName _); [|done].
  destruct (subscription_subscriptionId _); [|done].
  destruct (subscription_id _); [|done].
  by intros [= <-].
Qed.

Lemma findExisting_same_id previous filter filter' :
  subscription_id (subscription filter) = subscription_id (subscription filter') →
  findExisting previous filter = findExisting previous filter'.
Proof. unfold findExisting. by intros ->. Qed.

(** X20. Node identity survives a refresh.  With a factory that gives each
    node the subscription path of its context as id (as the constructor of
    [SubscriptionTreeItemBase] does) and filters of distinct ids, a pass
    that follows a pass that returned, on the same filters, returns the
    very same list: every node is reused, the ones the first pass made as
    well as the ones it found, and the factory is not called again. *)
Theorem refresh_keeps_the_nodes cc context st azureAccount ready w1 b out st1
    cc' context' st2 ready' w2 b'
    (Htask : settled (_azureAccountTask (this st)) = Resolved (Some azureAccount))
    (Hstatus : account_status azureAccount (world st) = LoggedIn)
    (Hwait : account_waitForFilters azureAccount (world st) = (ready, w1))
    (Hready : settled ready = Resolved b)
    (Hfilters : account_filters azureAccount w1 ≠ [])
    (Hids : ∀ root' w node,
              settled (createSubscriptionTreeItem root' w).1 = Resolved node →
              treeItem_id node = Some (subscriptionPath root'))
    (Hdistinct : NoDup ((λ filter, subscription_id (subscription filter))
                          <$> account_filters azureAccount w1))
    (Hrun : loadMoreChildrenImpl cc context st = (Resolved out, st1))
    (Hthis : this st2 = this st1)
    (Hstatus' : account_status azureAccount (world st2) = LoggedIn)
    (Hwait' : account_waitForFilters azureAccount (world st2) = (ready', w2))
    (Hready' : settled ready' = Resolved b')
    (Hsame : account_filters azureAccount w2 = account_filters azureAccount w1) :
  ∃ st3,
    loadMoreChildrenImpl cc' context' st2 = (Resolved out, st3) ∧
    _subscriptionTreeItems (this st3) = _subscriptionTreeItems (this st1) ∧
    trace st3 = trace st2 ++ [CallWaitForFilters azureAccount].
Proof.
  destruct (loadMoreChildrenImpl_pass cc context st azureAccount ready w1 b
              Htask Hstatus Hwait Hready Hfilters)
    as (promises & calls & st1' & Hd & Hcalls & Hrun' & Hcache & Htask' & Htrace).
  rewrite Hrun' in Hrun.
  destruct (settled (PromiseNS.all promises)) as [items|e] eqn:Hall; [|done].
  injection Hrun as <- ->. apply all_Resolved in Hall.
  destruct (dispatched_resolved _ _ _ _ _ Hd Hall) as [Hlen Hnodes].
  assert (Forall2 (λ filter node, treeItem_id node = subscription_id (subscription filter))
            (account_filters azureAccount w1) items) as Hmatch.
  { apply Forall2_same_length_lookup. split; [done|].
    intros i filter node Hf Hn.
    destruct (Hnodes i filter Hf) as (node' & Hn' & Hcase).
    rewrite Hn in Hn'. injection Hn' as <-.
    destruct (findExisting _ filter) as [existing|] eqn:Hfind.
    - subst node. by apply findExisting_Some in Hfind as [_ ?].
    - destruct Hcase as (root' & p & w & Hctx & _ & Hp & Hres).
      rewrite (subscriptionContext_path _ _ Hctx).
      apply (Hids root' w). by rewrite Hp. }
  assert (treeItem_id <$> items
          = (λ filter, subscription_id (subscription filter)) <$> account_filters azureAccount w1)
    as Hitems.
  { apply list_eq_Forall2, Forall2_fmap, Forall2_flip.
    eapply Forall2_impl; [exact Hmatch|]. done. }
  destruct (loadMoreChildrenImpl_on_own_nodes cc' context' st2 azureAccount ready' w2 b' items)
    as (st3 & Hrun2 & Hcache2 & Htrace2); try done.
  - by rewrite Hthis, Htask'.
  - by rewrite Hsame.
  - by rewrite Hthis.
  - by rewrite Hsame.
  - by rewrite Hitems.
  - exists st3. split_and!; [done | by rewrite Hcache2, Hcache | done].
Qed.

(** X21. Two filters of one pass that carry the same id, when some node of
    the previous list has that id, get one and the same node: [find] looks
    at the id and at nothing else of a filter. *)
Theorem same_id_same_node cc context st azureAccount ready w1 b out st1 i j filter filter'
    (Htask : settled (_azureAccountTask (this st)) = Resolved (Some azureAccount))
    (Hstatus : account_status azureAccount (world st) = LoggedIn)
    (Hwait : account_waitForFilters azureAccount (world st) = (ready, w1))
    (Hready : settled ready = Resolved b)
    (Hrun : loadMoreChildrenImpl cc context st = (Resolved out, st1))
    (Hi : account_filters azureAccount w1 !! i = Some filter)
    (Hj : account_filters azureAccount w1 !! j = Some filter')
    (Hid : subscription_id (subscription filter) = subscription_id (subscription filter'))
    (Hmatch : ∃ ti, ti ∈ default [] (_subscriptionTreeItems (this st)) ∧
                    treeItem_id ti = subscription_id (subscription filter)) :
  ∃ node,
    out !! i = Some (SubscriptionItem node) ∧
    out !! j = Some (SubscriptionItem node) ∧
    node ∈ default [] (_subscriptionTreeItems (this st)).
Proof.
  destruct (loadMoreChildrenImpl_pass cc context st azureAccount ready w1 b)
    as (promises & calls & st1' & Hd & Hcalls & Hrun' & Hcache & Htask' & Htrace); try done.
  { intros Hnil. by rewrite Hnil in Hi. }
  rewrite Hrun' in Hrun.
  destruct (settled (PromiseNS.all promises)) as [items|e] eqn:Hall; [|done].
  injection Hrun as <- ->. apply all_Resolved in Hall.
  destruct (dispatched_resolved _ _ _ _ _ Hd Hall) as [Hlen Hnodes].
  destruct (Hnodes i filter Hi) as (node & Hnode & Hcase).
  destruct (Hnodes j filter' Hj) as (node' & Hnode' & Hcase').
  rewrite <- (findExisting_same_id _ _ _ Hid) in Hcase'.
  destruct (findExisting _ filter) as [existing|] eqn:Hfind.
  - subst node node'. exists existing. rewrite !list_lookup_fmap, Hnode, Hnode'.
    split_and!; [done | done |]. by apply findExisting_Some in Hfind as [? _].
  - destruct Hmatch as (ti & Hin & Hti). rewrite findExisting_None in Hfind.
    by destruct (Hfind ti Hin).
Qed.

End Refresh.

(** The pass on A and B with the filters /sub/2 and /sub/3 returns B and a
    new node C; the pass that follows returns B and C again. *)
Lemma refresh_keeps_the_nodes_witness :
  ∃ out st1 st3,
    loadMoreChildrenImpl false 0 Fixture.scenario = (Resolved out, st1) ∧
    loadMoreChildrenImpl false 0 st1 = (Resolved out, st3) ∧
    out = [SubscriptionItem Fixture.nodeB; SubscriptionItem Fixture.nodeC].
Proof.
  assert (loadMoreChildrenImpl false 0 Fixture.scenario =
          (Resolved [SubscriptionItem Fixture.nodeB; SubscriptionItem Fixture.nodeC],
           (loadMoreChildrenImpl false 0 Fixture.scenario).2)) as Hrun
    by (vm_compute; reflexivity).
  destruct (refresh_keeps_the_nodes false 0 Fixture.scenario Fixture.theAccount
              (mkPromise 1 (Resolved true)) (world Fixture.scenario) true
              [SubscriptionItem Fixture.nodeB; SubscriptionItem Fixture.nodeC]
              (loadMoreChildrenImpl false 0 Fixture.scenario).2
              false 0 (loadMoreChildrenImpl false 0 Fixture.scenario).2
              (mkPromise 1 (Resolved true))
              (world (loadMoreChildrenImpl false 0 Fixture.scenario).2) true
              ltac:(vm_compute; reflexivity) ltac:(vm_compute; reflexivity)
              ltac:(vm_compute; reflexivity) ltac:(vm_compute; reflexivity)
              ltac:(vm_compute; discriminate))
    as (st3 & Hnext & _); try done.
  - intros root' w node. simpl. unfold Fixture.build.
    case_bool_decide; simpl; [done|]. by intros [= <-].
  - vm_compute. repeat constructor.
    + intros [[=]|?%not_elem_of_nil]%elem_of_cons. done.
    + by intros ?%not_elem_of_nil.
  - by eexists _, _, st3.
Defined.

(** Both filters are /sub/2 and B is in the cache: B is returned twice. *)
Lemma same_id_same_node_witness :
  ∃ out st1 node,
    loadMoreChildrenImpl false 0
      (Fixture.nodeIn
         (Fixture.worldWith LoggedIn [Fixture.filterFor "/sub/2"; Fixture.filterFor "/sub/2"] [])
         (Some [Fixture.nodeA; Fixture.nodeB]))
      = (Resolved out, st1) ∧
    out !! 0 = Some (SubscriptionItem node) ∧
    out !! 1 = Some (SubscriptionItem node).
Proof.
  set (st := Fixture.nodeIn
               (Fixture.worldWith LoggedIn [Fixture.filterFor "/sub/2"; Fixture.filterFor "/sub/2"] [])
               (Some [Fixture.nodeA; Fixture.nodeB])).
  assert (loadMoreChildrenImpl false 0 st =
          (Resolved [SubscriptionItem Fixture.nodeB; SubscriptionItem Fixture.nodeB],
           (loadMoreChildrenImpl false 0 st).2)) as Hrun
    by (vm_compute; reflexivity).
  destruct (same_id_same_node false 0 st Fixture.theAccount
              (mkPromise 1 (Resolved true)) (world st) true _ _ 0 1
              (Fixture.filterFor "/sub/2") (Fixture.filterFor "/sub/2")
              ltac:(vm_compute; reflexivity) ltac:(vm_compute; reflexivity)
              ltac:(vm_compute; reflexivity) ltac:(vm_compute; reflexivity)
              Hrun ltac:(vm_compute; reflexivity) ltac:(vm_compute; reflexivity) eq_refl)
    as (node & Hfirst & Hsecond & _).
  { exists Fixture.nodeB. split; [|reflexivity].
    apply list_elem_of_further, list_elem_of_here. }
  by eexists _, _, node.
Defined.

(** ** The children, all branches together *)

Section Children.

Context {World : Type} `{!Host World}.
Implicit Types (st : St World).

(** The children [loadMoreChildrenImpl] can return. *)
Lemma loadMoreChildrenImpl_children cc context st out :
  (loadMoreChildrenImpl cc context st).1 = Resolved out →
  (settled (_azureAccountTask (this st)) = Resolved None ∧
   ∃ g, out = [Generic g] ∧ commandId g = Some extensionOpenCommand ∧
        iconPath g = None ∧ includeInTreeItemPicker g = Some true) ∨
  (∃ azureAccount,
     settled (_azureAccountTask (this st)) = Resolved (Some azureAccount) ∧
     match account_status azureAccount (world st) with
     | Initializing | LoggingIn =>
         ∃ g, out = [Generic g] ∧ commandId g = Some signInCommandId ∧
              iconPath g = Some loadingIconPath ∧ includeInTreeItemPicker g = None
     | LoggedOut =>
         ∃ g1 g2, out = [Generic g1; Generic g2] ∧
                  commandId g1 = Some signInCommandId ∧
                  commandId g2 = Some createAccountCommandId ∧
                  iconPath g1 = None ∧ iconPath g2 = None ∧
                  includeInTreeItemPicker g1 = Some true ∧
                  includeInTreeItemPicker g2 = Some true
     | LoggedIn =>
         (∃ g, out = [Generic g] ∧ commandId g = Some selectSubscriptionsCommandId ∧
               iconPath g = None ∧ includeInTreeItemPicker g = Some true) ∨
         (∃ items, out = SubscriptionItem <$> items)
     end).
Proof.
  destruct (settled (_azureAccountTask (this st))) as [[azureAccount|]|e] eqn:Htask.
  - intros Hout. right. exists azureAccount. split; [done|].
    destruct (account_status azureAccount (world st)) eqn:Hstatus.
    1, 2, 4:
      revert Hout;
      unfold loadMoreChildrenImpl, bind, gets, await, setTelemetry, setSubscriptionTreeItems,
        modify, callHost; simpl; rewrite Htask, Hstatus; simpl;
      intros [= <-]; by eexists _, _ || by eexists.
    destruct (account_waitForFilters azureAccount (world st)) as [ready w1] eqn:Hwait.
    destruct (settled ready) as [b|e] eqn:Hready.
    + destruct (decide (account_filters azureAccount w1 = [])) as [Hnone|Hsome].
      * destruct (no_filters_placeholder cc context st azureAccount ready w1 b)
          as (placeholder & st' & Hrun & _ & _ & -> & _); try done.
        rewrite Hrun in Hout. injection Hout as <-. left. by eexists.
      * destruct (loadMoreChildrenImpl_pass cc context st azureAccount ready w1 b)
          as (promises & calls & st1 & _ & _ & Hrun & _); try done.
        rewrite Hrun in Hout. simpl in Hout.
        destruct (settled (PromiseNS.all promises)) as [items|]; [|done].
        injection Hout as <-. right. by exists items.
    + revert Hout.
      unfold loadMoreChildrenImpl, bind, gets, await, setTelemetry, setSubscriptionTreeItems,
        modify, callHost; simpl. rewrite Htask, Hstatus; simpl. by rewrite Hwait, Hready.
  - destruct (loadMoreChildrenImpl_absent cc context st Htask) as (st' & Hrun & _).
    rewrite Hrun. intros [= <-]. left. split; [done|]. by eexists.
  - unfold loadMoreChildrenImpl, bind, gets, await. simpl. by rewrite Htask.
Qed.

(** X22. Whatever the branch, a child that is not a subscription node is a
    placeholder with a command to invoke; and it is offered by the tree
    item picker unless it is the placeholder with the loading icon. *)
Theorem every_placeholder_carries_a_command cc context st out g
    (Hout : (loadMoreChildrenImpl cc context st).1 = Resolved out)
    (Hchild : Generic g ∈ out) :
  is_Some (commandId g) ∧
  (includeInTreeItemPicker g = Some true ∨
   (includeInTreeItemPicker g = None ∧ iconPath g = Some loadingIconPath)).
Proof.
  destruct (loadMoreChildrenImpl_children cc context st out Hout)
    as [(_ & g0 & -> & Hc & _ & Hp)|(azureAccount & _ & Hcases)].
  { apply list_elem_of_singleton in Hchild as [= ->]. split; [by eexists | by left]. }
  destruct (account_status azureAccount (world st)).
  1, 2: destruct Hcases as (g0 & -> & Hc & Hi & Hp);
        apply list_elem_of_singleton in Hchild as [= ->];
        (split; [by eexists | by right]).
  - destruct Hcases as [(g0 & -> & Hc & _ & Hp)|(items & ->)].
    + apply list_elem_of_singleton in Hchild as [= ->]. split; [by eexists | by left].
    + by apply list_elem_of_fmap in Hchild as (? & [=] & _).
  - destruct Hcases as (g1 & g2 & -> & Hc1 & Hc2 & _ & _ & Hp1 & Hp2).
    apply elem_of_cons in Hchild as [[= ->]|Hchild]; [split; [by eexists | by left]|].
    apply list_elem_of_singleton in Hchild as [= ->]. split; [by eexists | by left].
Qed.

(** X23. The placeholder with the loading icon is among the children
    exactly while the account is initializing or logging in: no other
    branch shows the icon. *)
Theorem loading_icon_only_while_signing_in cc context st azureAccount out
    (Htask : settled (_azureAccountTask (this st)) = Resolved (Some azureAccount))
    (Hout : (loadMoreChildrenImpl cc context st).1 = Resolved out) :
  (∃ g, Generic g ∈ out ∧ is_Some (iconPath g)) ↔
  (account_status azureAccount (world st) = Initializing ∨
   account_status azureAccount (world st) = LoggingIn).
Proof.
  destruct (loadMoreChildrenImpl_children cc context st out Hout)
    as [(Hnone & _)|(a & Htask' & Hcases)]; [congruence|].
  assert (a = azureAccount) as -> by congruence.
  destruct (account_status azureAccount (world st)).
  1, 2: destruct Hcases as (g0 & -> & _ & Hi & _);
        (split; [intros _; by (left + right) |
                 intros _; exists g0; split; [apply list_elem_of_here | by eexists]]).
  - split; [|by intros [?|?]].
    intros (g & Hchild & Hicon).
    destruct Hcases as [(g0 & -> & _ & Hi & _)|(items & ->)].
    + apply list_elem_of_singleton in Hchild as [= ->]. rewrite Hi in Hicon. by destruct Hicon.
    + by apply list_elem_of_fmap in Hchild as (? & [=] & _).
  - split; [|by intros [?|?]].
    intros (g & Hchild & Hicon).
    destruct Hcases as (g1 & g2 & -> & _ & _ & Hi1 & Hi2 & _).
    apply elem_of_cons in Hchild as [[= ->]|Hchild].
    + rewrite Hi1 in Hicon. by destruct Hicon.
    + apply list_elem_of_singleton in Hchild as [= ->]. rewrite Hi2 in Hicon. by destruct Hicon.
Qed.

End Children.

Lemma every_placeholder_carries_a_command_witness :
  ∃ out g,
    (loadMoreChildrenImpl false 0 Fixture.loggedOut).1 = Resolved out ∧
    out !! 1 = Some (Generic g) ∧
    is_Some (commandId g) ∧
    includeInTreeItemPicker g = Some true.
Proof.
  set (g := {| label := "Create a Free Azure Account...";
               commandId := Some createAccountCommandId;
               contextValue := "azureCommand";
               generic_id := Some createAccountCommandId;
               iconPath := None;
               includeInTreeItemPicker := Some true;
               commandArgs := None |}).
  assert ((loadMoreChildrenImpl false 0 Fixture.loggedOut).1 =
          Resolved [Generic
                      {| label := "Sign in to Azure...";
                         commandId := Some signInCommandId;
                         contextValue := "azureCommand";
                         generic_id := Some signInCommandId;
                         iconPath := None;
                         includeInTreeItemPicker := Some true;
                         commandArgs := None |};
                    Generic g]) as Hout
    by (vm_compute; reflexivity).
  destruct (every_placeholder_carries_a_command false 0 Fixture.loggedOut _ g Hout)
    as [Hcommand _].
  { apply list_elem_of_further, list_elem_of_here. }
  eexists _, g. split_and!; [exact Hout | reflexivity | exact Hcommand | reflexivity].
Defined.

Lemma loading_icon_only_while_signing_in_witness :
  ∃ g, Generic g ∈ [Generic
                      {| label := "Loading...";
                         commandId := Some signInCommandId;
                         contextValue := "azureCommand";
                         generic_id := Some signInCommandId;
                         iconPath := Some (@loadingIconPath _ Fixture.testHost);
                         includeInTreeItemPicker := None;
                         commandArgs := None |}] ∧
       is_Some (iconPath g).
Proof.
  refine (proj2 (loading_icon_only_while_signing_in false 0 Fixture.initializing
                   Fixture.theAccount _ _ _) _).
  - vm_compute; reflexivity.
  - vm_compute; reflexivity.
  - left. vm_compute; reflexivity.
Defined.
